(** * Energy-estimation models of the dashboard

    A shallow embedding of [energy_savings.py] (the month-based baseline
    model and its metrics) and of [mpc.py] (the linear MPC/RBC thermal
    model and its savings metrics), together with the synthetic outdoor
    temperature generator.

    Conventions of the embedding.
    - A pandas DataFrame with the columns ['_time'] and ['_value'] (or
      ['energy']) is a list of rows, in row order; [[]] is such a frame
      without rows.  The frame [pd.DataFrame()], which has no column at
      all, is not a list of rows: it is [NoColumns] of [DataFrame], and
      the functions of the modules [EnergyCalculatorDF] and
      [MPCCalculatorDF] say what the models do on it.
    - A timestamp is the number of seconds since 1970-01-01T00:00:00 of a
      naive datetime; [.dt.month] and [.hour] are computed from it with
      the proleptic Gregorian calendar.
    - Python floats are read as exact rational numbers ([Q]); the
      generator, which calls [np.sin], is over the real numbers ([R]).
      Rounding of binary floating point is outside the model. *)

From Stdlib Require Import Reals.
From Stdlib Require Import ZArith QArith Qminmax Lqa Lia List String Bool.
From Stdlib Require Import Permutation Sorted.
Import ListNotations.

Open Scope Z_scope.

(** ** Timestamps *)

Abbreviation Timestamp := Z (only parsing).

Definition SECONDS_PER_DAY : Z := 86400.

(** Day number (days since 1970-01-01) of a timestamp. *)
Definition days_of (t : Timestamp) : Z := t / SECONDS_PER_DAY.

(** Calendar month (1..12) of a day number, proleptic Gregorian calendar,
    with the year taken to start in March inside the computation. *)
Definition month_of_days (d : Z) : Z :=
  let z := d + 719468 in
  let era := z / 146097 in
  let doe := z - era * 146097 in
  let yoe := (doe - doe / 1460 + doe / 36524 - doe / 146096) / 365 in
  let doy := doe - (365 * yoe + yoe / 4 - yoe / 100) in
  let mp := (5 * doy + 2) / 153 in
  if mp <? 10 then mp + 3 else mp - 9.

(** [Timestamp.month] / [Series.dt.month]. *)
Definition month (t : Timestamp) : Z := month_of_days (days_of t).

(** [Timestamp.hour]. *)
Definition hour (t : Timestamp) : Z := (t mod SECONDS_PER_DAY) / 3600.

(** [pd.date_range(start, end, freq)] for a fixed-length frequency of
    [freq] seconds: [start], [start + freq], ... while not after [end]. *)
Definition date_range (start_date end_date freq : Z) : list Timestamp :=
  if end_date <? start_date then []
  else map (fun k => start_date + Z.of_nat k * freq)
           (seq 0 (S (Z.to_nat ((end_date - start_date) / freq)))).

(** ** Data frames *)

Open Scope Q_scope.

(** A row of a temperature frame: ['_time'], ['_value']. *)
Abbreviation TimeSample := (Timestamp * Q)%type (only parsing).
Abbreviation TimeSeries := (list TimeSample) (only parsing).

(** A row of an energy frame: ['_time'], ['energy']. *)
Abbreviation EnergySample := (Timestamp * Q)%type (only parsing).
Abbreviation EnergySeries := (list EnergySample) (only parsing).

Definition times {A : Type} (df : list (Timestamp * A)) : list Timestamp :=
  map fst df.

(** [df['energy'].sum()]. *)
Definition sum (xs : list Q) : Q := fold_right Qplus 0 xs.

Definition energy_column (df : EnergySeries) : list Q := map snd df.

(** [len(df)] as a number. *)
Definition len {A : Type} (df : list A) : Q := inject_Z (Z.of_nat (List.length df)).

(** [Series.clip(lower=lo)] on one element. *)
Definition clip_lower (lo x : Q) : Q := if Qlt_le_dec x lo then lo else x.

(** Pointwise equality of frames: same timestamps, equal numbers. *)
Definition row_eq (a b : Timestamp * Q) : Prop :=
  fst a = fst b /\ snd a == snd b.
Definition series_eq (xs ys : list (Timestamp * Q)) : Prop :=
  Forall2 row_eq xs ys.

(** ** energy_savings.py *)

Module EnergyCalculator.

Definition BASE_RATE_ELECTRIC : Q := 2.08.
Definition BASE_RATE_GAS : Q := 0.34.
Definition BASE_RATE : Q := BASE_RATE_ELECTRIC + BASE_RATE_GAS.

(** The dictionary [HEATING_RATES], in source order. *)
Definition HEATING_RATES : list (Z * Q) :=
  [ (11%Z, 2.43); (12%Z, 4.75); (1%Z, 6.67); (2%Z, 6.76); (3%Z, 4.96) ].

Definition ELECTRIC_RATE : Q := 0.15.
Definition GAS_RATE : Q := 0.0226.

(** [d.get(k, default)]. *)
Fixpoint get (d : list (Z * Q)) (k : Z) (default : Q) : Q :=
  match d with
  | [] => default
  | (k', v) :: d' => if Z.eqb k' k then v else get d' k default
  end.

(** The lambda applied to the month column in
    [calculate_energy_consumption]. *)
Definition hourly_rate (m : Z) : Q := BASE_RATE + get HEATING_RATES m 0.

(** The computation on an indoor frame that has its columns, given by its
    rows; the indoor values and the outdoor frame are not read.  What the
    call does on the frame without columns is in
    [EnergyCalculatorDF.calculate_energy_consumption]. *)
Definition calculate_energy_consumption
  (temperature_df outdoor_temp_df : TimeSeries) : EnergySeries :=
  let df := temperature_df in
  let months := map (fun row => month (fst row)) df in
  let energy := map hourly_rate months in
  combine (times df) energy.

Definition calculate_total_energy (energy_df : EnergySeries) : Q :=
  sum (energy_column energy_df).

Definition DEFAULT_electricity_rate : Q := 0.15.
Definition DEFAULT_co2_per_kwh : Q := 0.417.
Definition DEFAULT_kg_per_km : Q := 0.222.

Definition calculate_cost (energy_kwh electricity_rate : Q) : Q :=
  energy_kwh * electricity_rate.

Definition calculate_co2_emissions (energy_kwh co2_per_kwh : Q) : Q :=
  energy_kwh * co2_per_kwh.

Definition calculate_equivalent_km_driven (co2_kg kg_per_km : Q) : Q :=
  co2_kg / kg_per_km.

(** The lambda applied to the month column in [calculate_all_metrics]. *)
Definition gas_rate_of_month (m : Z) : Q := BASE_RATE_GAS + get HEATING_RATES m 0.

Definition electric_energy_kwh (energy_df : EnergySeries) : Q :=
  len energy_df * BASE_RATE_ELECTRIC.

Definition gas_energy_kwh (energy_df : EnergySeries) : Q :=
  sum (map gas_rate_of_month (map (fun row => month (fst row)) energy_df)).

(** The dictionary returned by [calculate_all_metrics]. *)
Record Metrics : Type := mkMetrics {
  total_energy_kwh : Q;
  cost_usd : Q;
  co2_kg : Q;
  equivalent_km : Q;
  energy_df : EnergySeries
}.

(** On an indoor frame that has its columns, given by its rows;
    [electricity_rate] is accepted and not used, as in the source. *)
Definition calculate_all_metrics
  (temperature_df outdoor_temp_df : TimeSeries) (electricity_rate : Q) : Metrics :=
  let energy_df := calculate_energy_consumption temperature_df outdoor_temp_df in
  let total_energy_kwh := calculate_total_energy energy_df in
  let electric_cost := electric_energy_kwh energy_df * ELECTRIC_RATE in
  let gas_cost := gas_energy_kwh energy_df * GAS_RATE in
  let cost_usd := electric_cost + gas_cost in
  let co2_kg := calculate_co2_emissions total_energy_kwh DEFAULT_co2_per_kwh in
  let km_driven := calculate_equivalent_km_driven co2_kg DEFAULT_kg_per_km in
  mkMetrics total_energy_kwh cost_usd co2_kg km_driven energy_df.

End EnergyCalculator.

(** ** mpc.py *)

Module MPCCalculator.

Definition RBC_C1_HEATING : Q := 0.1958333333.
Definition C2_HEATING : Q := -8.
Definition MPC_C1_HEATING : Q := 0.1595833333.

Definition RBC_C1_COOLING : Q := 0.1266666667.
Definition C2_COOLING : Q := 6.4.
Definition MPC_C1_COOLING : Q := 0.1091666667.

(** A row of the merged frame: ['_time'], ['_value_indoor'],
    ['_value_outdoor']. *)
Abbreviation MergedRow := (Timestamp * (Q * Q))%type (only parsing).

(** [pd.merge(left, right, on='_time')]: the inner join, in the order of
    the left frame; a left row is paired with every right row of the same
    timestamp, in the order of the right frame. *)
Definition merge (left right : TimeSeries) : list MergedRow :=
  flat_map (fun l =>
    map (fun r => (fst l, (snd l, snd r)))
        (filter (fun r => Z.eqb (fst r) (fst l)) right)) left.

(** The branch that selects the constants: every mode other than
    ['heating'] takes the cooling constants, every control type other than
    ['mpc'] takes the RBC slope. *)
Definition select_c1 (mode control_type : string) : Q :=
  if String.eqb mode "heating"
  then (if String.eqb control_type "mpc" then MPC_C1_HEATING else RBC_C1_HEATING)
  else (if String.eqb control_type "mpc" then MPC_C1_COOLING else RBC_C1_COOLING).

Definition select_c2 (mode : string) : Q :=
  if String.eqb mode "heating" then C2_HEATING else C2_COOLING.

(** E = C1 * (T_indoor - T_outdoor) + C2, clipped below at 0. *)
Definition energy_of_row (c1 c2 : Q) (row : MergedRow) : EnergySample :=
  (fst row, clip_lower 0 (c1 * (fst (snd row) - snd (snd row)) + c2)).

Definition calculate_energy_consumption
  (temperature_df outdoor_temp_df : TimeSeries)
  (mode control_type : string) : EnergySeries :=
  let merged := merge temperature_df outdoor_temp_df in
  let c1 := select_c1 mode control_type in
  let c2 := select_c2 mode in
  map (energy_of_row c1 c2) merged.

Definition calculate_total_energy_savings
  (mpc_energy_df rbc_energy_df : EnergySeries) : Q :=
  let mpc_total := sum (energy_column mpc_energy_df) in
  let rbc_total := sum (energy_column rbc_energy_df) in
  let savings_wh := rbc_total - mpc_total in
  savings_wh / 1000.

Definition DEFAULT_electricity_rate : Q := 0.15.
Definition DEFAULT_co2_per_kwh : Q := 0.92.
Definition DEFAULT_lbs_per_mile : Q := 0.79.

Definition calculate_cost_savings (energy_savings_kwh electricity_rate : Q) : Q :=
  energy_savings_kwh * electricity_rate.

Definition calculate_co2_savings (energy_savings_kwh co2_per_kwh : Q) : Q :=
  energy_savings_kwh * co2_per_kwh.

Definition calculate_equivalent_miles_driven (co2_savings_lbs lbs_per_mile : Q) : Q :=
  co2_savings_lbs / lbs_per_mile.

(** The dictionary returned by [calculate_all_savings_metrics]. *)
Record SavingsMetrics : Type := mkSavingsMetrics {
  energy_savings_kwh : Q;
  cost_savings_usd : Q;
  co2_savings_lbs : Q;
  equivalent_miles : Q;
  mpc_energy : EnergySeries;
  rbc_energy : EnergySeries
}.

Definition calculate_all_savings_metrics
  (temperature_df outdoor_temp_df : TimeSeries)
  (mode : string) (electricity_rate : Q) : SavingsMetrics :=
  let mpc_energy :=
    calculate_energy_consumption temperature_df outdoor_temp_df mode "mpc" in
  let rbc_energy :=
    calculate_energy_consumption temperature_df outdoor_temp_df mode "rbc" in
  let energy_savings_kwh := calculate_total_energy_savings mpc_energy rbc_energy in
  let cost_savings_usd := calculate_cost_savings energy_savings_kwh electricity_rate in
  let co2_savings_lbs := calculate_co2_savings energy_savings_kwh DEFAULT_co2_per_kwh in
  let miles_driven :=
    calculate_equivalent_miles_driven co2_savings_lbs DEFAULT_lbs_per_mile in
  mkSavingsMetrics energy_savings_kwh cost_savings_usd co2_savings_lbs
                   miles_driven mpc_energy rbc_energy.

(** The merged frame has the columns ['_time'], ['energy_mpc'],
    ['energy_rbc']. *)
Definition create_mpc_comparison_df
  (mpc_energy_df rbc_energy_df : EnergySeries) : list MergedRow :=
  merge mpc_energy_df rbc_energy_df.

End MPCCalculator.

(** What a call does: it returns a value or raises an exception.  None of
    the modelled functions has a [raise] statement or a check of its
    arguments; an exception comes from pandas only, when a column that is
    read does not exist or cannot be summed. *)
Inductive Outcome (A : Type) : Type :=
| Returned (value : A)
| Raised (error : string).
Arguments Returned {A} value.
Arguments Raised {A} error.

Definition bind {A B : Type} (c : Outcome A) (k : A -> Outcome B) : Outcome B :=
  match c with
  | Returned value => k value
  | Raised error => Raised error
  end.

Notation "x <- c ;; k" := (bind c (fun x => k))
  (at level 61, c at next level, right associativity).

(** The thermal model on two frames that have their columns: nothing in
    it raises, whatever the mode and the control type. *)
Definition run_calculate_energy_consumption
  (temperature_df outdoor_temp_df : TimeSeries)
  (mode control_type : string) : Outcome EnergySeries :=
  Returned (MPCCalculator.calculate_energy_consumption
              temperature_df outdoor_temp_df mode control_type).

(** ** The models on the frames of the query layer *)

(** A frame handed to a model: [pd.DataFrame()], without any column, which
    is what [InfluxDBHelper.query] returns when there is no table or when
    the query fails, or a frame with the columns ['_time'] and ['_value']
    and its rows. *)
Inductive DataFrame : Type :=
| NoColumns
| Columns (rows : TimeSeries).

(** [df.empty]: no column, or no row. *)
Definition is_empty (df : DataFrame) : bool :=
  match df with
  | NoColumns => true
  | Columns [] => true
  | Columns (_ :: _) => false
  end.

(** The rows of a frame that is not read for anything else. *)
Definition rows_of (df : DataFrame) : TimeSeries :=
  match df with
  | NoColumns => []
  | Columns rows => rows
  end.

Definition KeyError_time : string := "KeyError: '_time'".

Module EnergyCalculatorDF.

(** [df['_time']] raises KeyError on the frame without columns; the
    outdoor frame is not read. *)
Definition calculate_energy_consumption
  (temperature_df outdoor_temp_df : DataFrame) : Outcome EnergySeries :=
  match temperature_df with
  | NoColumns => Raised KeyError_time
  | Columns rows =>
      Returned (EnergyCalculator.calculate_energy_consumption
                  rows (rows_of outdoor_temp_df))
  end.

(** The first statement is the call of [calculate_energy_consumption]. *)
Definition calculate_all_metrics
  (temperature_df outdoor_temp_df : DataFrame) (electricity_rate : Q)
  : Outcome EnergyCalculator.Metrics :=
  match temperature_df with
  | NoColumns => Raised KeyError_time
  | Columns rows =>
      Returned (EnergyCalculator.calculate_all_metrics
                  rows (rows_of outdoor_temp_df) electricity_rate)
  end.

End EnergyCalculatorDF.

Module MPCCalculatorDF.

(** [pd.merge(..., on='_time')] raises KeyError when one of the two frames
    has no column ['_time']. *)
Definition calculate_energy_consumption
  (temperature_df outdoor_temp_df : DataFrame)
  (mode control_type : string) : Outcome EnergySeries :=
  match temperature_df, outdoor_temp_df with
  | Columns indoor, Columns outdoor =>
      run_calculate_energy_consumption indoor outdoor mode control_type
  | _, _ => Raised KeyError_time
  end.

End MPCCalculatorDF.

(** ** The synthetic outdoor temperature generator *)

Definition default_base_temp : R := 40%R.
Definition default_amplitude : R := 20%R.
(** ['1h'] *)
Definition default_freq : Z := 3600%Z.

Definition temp_variation (amplitude : R) (h : Z) : R :=
  (amplitude * sin (2 * PI * (IZR h - 6) / 24))%R.

Definition simulate_outdoor_temperature
  (start_date end_date : Timestamp) (base_temp amplitude : R) (freq : Z)
  : list (Timestamp * R) :=
  let dr := date_range start_date end_date freq in
  let hours := map hour dr in
  let outdoor_temp := map (fun h => (base_temp + temp_variation amplitude h)%R) hours in
  combine dr outdoor_temp.


(** ** visualizations.py, visualizations_plotly.py: the gauge *)

Module Gauge.

(** The thresholds and colours taken when the caller passes [None]. *)
Definition default_thresholds (min_val max_val : Q) : list Q :=
  [min_val; (max_val - min_val) * 0.5 + min_val; max_val].

Definition default_threshold_colors : list string :=
  ["#73BF69"; "#F2CC0C"; "#E02F44"]%string.

(** One colour zone: ['range': [start, end]], ['color']. *)
Record Step : Type := mkStep {
  range_start : Q;
  range_end : Q;
  color : string
}.

(** The body of the loop for index [i]; an index out of range raises
    IndexError, here [None]. *)
Definition step_at (thresholds : list Q) (threshold_colors : list string)
  (i : nat) : option Step :=
  match nth_error thresholds i, nth_error thresholds (S i),
        nth_error threshold_colors i with
  | Some t_start, Some t_end, Some c => Some (mkStep t_start t_end c)
  | _, _, _ => None
  end.

(** Runs the iterations in order; the first one that raises ends the loop. *)
Fixpoint collect {A : Type} (results : list (option A)) : option (list A) :=
  match results with
  | [] => Some []
  | None :: _ => None
  | Some x :: rest =>
      match collect rest with
      | Some xs => Some (x :: xs)
      | None => None
      end
  end.

(** [for i in range(len(thresholds) - 1): steps.append(...)]. *)
Definition steps (thresholds : list Q) (threshold_colors : list string)
  : option (list Step) :=
  collect (map (step_at thresholds threshold_colors)
               (seq 0 (List.length thresholds - 1))).

(** [np.clip(x, lo, hi)]. *)
Definition clip (x lo hi : Q) : Q :=
  if Qlt_le_dec x lo then lo else if Qlt_le_dec hi x then hi else x.

(** The position of the needle between 0 and 1. *)
Definition value_normalized (value min_val max_val : Q) : Q :=
  clip ((value - min_val) / (max_val - min_val)) 0 1.

End Gauge.

(** ** queries.py: the actual consumption and the predicted bill *)

Module InfluxDBHelper.

(** A cell of an object column: a number, a missing value (NaN) or a
    string. *)
Inductive Cell : Type :=
| Num (x : Q)
| NaN
| Str (s : string).

(** A column with its dtype: float64 (where [None] is NaN), int64, or
    object. *)
Inductive Column : Type :=
| Float64 (cells : list (option Q))
| Int64 (cells : list Z)
| Object (cells : list Cell).

Definition column_length (c : Column) : nat :=
  match c with
  | Float64 cells => List.length cells
  | Int64 cells => List.length cells
  | Object cells => List.length cells
  end.

(** A frame as its columns, by name, in column order; [pd.DataFrame()] is
    the frame without columns. *)
Abbreviation Frame := (list (string * Column)) (only parsing).

(** All columns of a frame have the same number of rows. *)
Definition well_formed (df : Frame) : Prop :=
  forall c c', In c df -> In c' df ->
               column_length (snd c) = column_length (snd c').

(** [df.empty]: no column, or no row. *)
Definition empty (df : Frame) : bool :=
  match df with
  | [] => true
  | (_, col) :: _ => Nat.eqb (column_length col) 0
  end.

(** [name in df.columns]. *)
Definition has_column (name : string) (df : Frame) : bool :=
  existsb (fun c => String.eqb (fst c) name) df.

Definition KeyError : string := "KeyError".
Definition TypeError : string := "TypeError".
Definition IndexError : string := "IndexError".

(** [df[name]]: KeyError when no column has that name. *)
Fixpoint column (name : string) (df : Frame) : Outcome Column :=
  match df with
  | [] => Raised KeyError
  | (n, col) :: rest =>
      if String.eqb n name then Returned col else column name rest
  end.

(** Addition of int64 wraps around. *)
Definition wrap_int64 (z : Z) : Z :=
  ((z + 2 ^ 63) mod 2 ^ 64 - 2 ^ 63)%Z.

Definition floats (cells : list (option Q)) : list Q :=
  flat_map (fun c => match c with Some x => [x] | None => [] end) cells.

Definition numbers (cells : list Cell) : list Q :=
  flat_map (fun c => match c with Num x => [x] | _ => [] end) cells.

Definition strings (cells : list Cell) : list string :=
  flat_map (fun c => match c with Str s => [s] | _ => [] end) cells.

Definition is_str (c : Cell) : bool :=
  match c with Str _ => true | _ => false end.

(** What [Series.sum()] gives: a number, or a text for an object column
    of strings. *)
Inductive Total : Type :=
| Number (x : Q)
| Text (s : string).

(** [Series.sum()]: NaN is skipped; an int64 column wraps around; in an
    object column strings are concatenated with one another, and a string
    added to a number (or to the 0 that stands for a skipped NaN) raises
    TypeError. *)
Definition series_sum (col : Column) : Outcome Total :=
  match col with
  | Float64 cells => Returned (Number (sum (floats cells)))
  | Int64 cells => Returned (Number (inject_Z (wrap_int64 (fold_right Z.add 0%Z cells))))
  | Object cells =>
      if negb (existsb is_str cells) then Returned (Number (sum (numbers cells)))
      else if forallb is_str cells then Returned (Text (String.concat "" (strings cells)))
      else Raised TypeError
  end.

(** [total / d]: a text cannot be divided. *)
Definition divide (total : Total) (d : Q) : Outcome Q :=
  match total with
  | Number x => Returned (x / d)
  | Text _ => Raised TypeError
  end.

(** [df] is the frame that [self.query(query)] returned. *)
Definition get_actual_energy_consumption (df : Frame) : Outcome Q :=
  if negb (empty df) && has_column "_value" df then
    col <- column "_value" df ;;
    total_wh <- series_sum col ;;
    total_kwh <- divide total_wh 1000 ;;
    Returned total_kwh
  else Returned 0.

Definition get_predicted_energy_bill (df : Frame) : Outcome Frame :=
  actual_kwh <- get_actual_energy_consumption df ;;
  let cost := actual_kwh * 0.15 in
  Returned [ ("value"%string, Float64 [Some cost]);
             ("unit"%string, Object [Str "USD"]) ].

End InfluxDBHelper.

(** ** app.py, main.py: the energy bill gauge *)

Module App.
Import InfluxDBHelper.

(** [Series.iloc[0]]: IndexError on a column without rows. *)
Definition iloc0 (col : Column) : Outcome Cell :=
  match col with
  | Float64 (Some x :: _) => Returned (Num x)
  | Float64 (None :: _) => Returned NaN
  | Int64 (z :: _) => Returned (Num (inject_Z z))
  | Object (c :: _) => Returned c
  | _ => Raised IndexError
  end.

(** What the callback returns: the gauge that [plot_gauge] draws for a
    value, or the figure of the [except] branch with the error. *)
Inductive Figure : Type :=
| GaugeFigure (bill_value : Cell)
| ErrorFigure (error : string).

(** The body of the [try]: [energy_df] is what the query of
    [get_actual_energy_consumption] returned and [power_df] what
    [get_grid_power] returns when it is called. *)
Definition bill_value (energy_df power_df : Frame) : Outcome Cell :=
  bill_df <- get_predicted_energy_bill energy_df ;;
  if negb (empty bill_df) && has_column "value" bill_df then
    col <- column "value" bill_df ;;
    iloc0 col
  else if negb (empty power_df) then
    col <- column "_value" power_df ;;
    total_wh <- series_sum col ;;
    total_kwh <- divide total_wh 1000 ;;
    Returned (Num (total_kwh * 0.15))
  else Returned (Num 0).

Definition update_energy_bill (energy_df power_df : Frame) : Figure :=
  match bill_value energy_df power_df with
  | Returned value => GaugeFigure value
  | Raised error => ErrorFigure error
  end.

End App.

(** ** The spec's tables, as the spec words them *)

(** Heating surcharge by calendar month, kWh per hour. *)
Definition surcharge (m : Z) : Q :=
  match m with
  | 11%Z => 2.43
  | 12%Z => 4.75
  | 1%Z => 6.67
  | 2%Z => 6.76
  | 3%Z => 4.96
  | _ => 0
  end.

(** The enumerated variants of the spec and the strings the code takes. *)
Inductive ThermalMode : Type := Heating | Cooling.
Inductive ControlStrategy : Type := MPC | RBC.

Definition mode_name (m : ThermalMode) : string :=
  match m with Heating => "heating" | Cooling => "cooling" end.

Definition strategy_name (c : ControlStrategy) : string :=
  match c with MPC => "mpc" | RBC => "rbc" end.

Definition valid_mode (mode : string) : Prop :=
  mode = "heating"%string \/ mode = "cooling"%string.

Definition valid_control_type (control_type : string) : Prop :=
  control_type = "mpc"%string \/ control_type = "rbc"%string.

(** The coefficient table (C1, C2) as the spec prints it, to eight
    decimal places. *)
Definition spec_coefficients (m : ThermalMode) (c : ControlStrategy) : Q * Q :=
  match m, c with
  | Heating, RBC => (0.19583333, -8)
  | Heating, MPC => (0.15958333, -8)
  | Cooling, RBC => (0.12666667, 6.4)
  | Cooling, MPC => (0.10916667, 6.4)
  end.

(** The coefficient table (C1, C2) with the ten decimal places of the
    constants of [mpc.py]. *)
Definition source_coefficients (m : ThermalMode) (c : ControlStrategy) : Q * Q :=
  match m, c with
  | Heating, RBC => (0.1958333333, -8)
  | Heating, MPC => (0.1595833333, -8)
  | Cooling, RBC => (0.1266666667, 6.4)
  | Cooling, MPC => (0.1091666667, 6.4)
  end.

(** max(0, C1 * (T_indoor - T_outdoor) + C2) for a coefficient pair. *)
Definition linear_clipped (coeff : Q * Q) (t_indoor t_outdoor : Q) : Q :=
  Qmax 0 (fst coeff * (t_indoor - t_outdoor) + snd coeff).

(** Membership of a timestamp in a list of timestamps. *)
Definition mem (t : Timestamp) (ts : list Timestamp) : bool :=
  existsb (Z.eqb t) ts.

(** ** Sample inputs *)

(** 2024-01-01T00:00:00 *)
Definition jan_2024 : Timestamp := 1704067200%Z.
(** 2024-07-03T09:46:40 *)
Definition jul_2024 : Timestamp := 1720000000%Z.

(** [n] hourly samples from [start], all of value [v]. *)
Definition hourly_samples (start : Timestamp) (n : nat) (v : Q) : TimeSeries :=
  map (fun k => ((start + Z.of_nat k * 3600)%Z, v)) (seq 0 n).

(** * Properties *)

(** ** Sums and lengths *)

Lemma sum_cons (x : Q) (xs : list Q) : sum (x :: xs) = x + sum xs.
Proof. reflexivity. Qed.

Lemma sum_map_ext {A : Type} (f g : A -> Q) (l : list A) :
  (forall x, In x l -> f x == g x) -> sum (map f l) == sum (map g l).
Proof.
  induction l as [|a l IH]; intros H; simpl.
  - reflexivity.
  - rewrite (H a (or_introl eq_refl)), IH; [reflexivity|].
    intros x Hx. apply H. now right.
Qed.

Lemma sum_map_plus {A : Type} (f g : A -> Q) (l : list A) :
  sum (map (fun x => f x + g x) l) == sum (map f l) + sum (map g l).
Proof.
  induction l as [|a l IH]; simpl.
  - reflexivity.
  - rewrite IH. ring.
Qed.

Lemma sum_map_scale {A : Type} (f : A -> Q) (c : Q) (l : list A) :
  sum (map (fun x => f x * c) l) == sum (map f l) * c.
Proof.
  induction l as [|a l IH]; simpl.
  - ring.
  - rewrite IH. ring.
Qed.

Lemma len_cons {A : Type} (a : A) (l : list A) : len (a :: l) == 1 + len l.
Proof.
  unfold len. cbn [List.length]. rewrite Nat2Z.inj_succ, <- Z.add_1_l.
  rewrite inject_Z_plus. reflexivity.
Qed.

Lemma len_nonneg {A : Type} (l : list A) : 0 <= len l.
Proof.
  unfold len. change 0 with (inject_Z 0). rewrite <- Zle_Qle. lia.
Qed.

Lemma len_map {A B : Type} (f : A -> B) (l : list A) : len (map f l) = len l.
Proof. unfold len. now rewrite length_map. Qed.

Lemma sum_map_const {A : Type} (c : Q) (l : list A) :
  sum (map (fun _ => c) l) == len l * c.
Proof.
  induction l as [|a l IH].
  - reflexivity.
  - cbn [map]. rewrite sum_cons, IH, len_cons. ring.
Qed.

Lemma sum_map_le {A : Type} (f g : A -> Q) (l : list A) :
  (forall x, In x l -> f x <= g x) -> sum (map f l) <= sum (map g l).
Proof.
  induction l as [|a l IH]; intros H; simpl.
  - apply Qle_refl.
  - apply Qplus_le_compat.
    + apply H. now left.
    + apply IH. intros x Hx. apply H. now right.
Qed.

(** ** The baseline model *)

Section Baseline.
Import EnergyCalculator.

Lemma get_HEATING_RATES (m : Z) : get HEATING_RATES m 0 = surcharge m.
Proof.
  unfold HEATING_RATES, get.
  destruct (Z.eqb_spec 11 m) as [<-|H11]; [reflexivity|].
  destruct (Z.eqb_spec 12 m) as [<-|H12]; [reflexivity|].
  destruct (Z.eqb_spec 1 m) as [<-|H1]; [reflexivity|].
  destruct (Z.eqb_spec 2 m) as [<-|H2]; [reflexivity|].
  destruct (Z.eqb_spec 3 m) as [<-|H3]; [reflexivity|].
  destruct m as [|p|p]; try reflexivity.
  do 4 (destruct p as [p|p|]; try reflexivity; try congruence).
Qed.

Lemma BASE_RATE_value : BASE_RATE == 2.42.
Proof. reflexivity. Qed.

Lemma surcharge_nonneg (m : Z) : 0 <= surcharge m.
Proof.
  destruct (get_HEATING_RATES m). unfold HEATING_RATES, get.
  repeat (destruct (Z.eqb _ m); [discriminate|]). discriminate.
Qed.

Lemma hourly_rate_spec (m : Z) : hourly_rate m == 2.42 + surcharge m.
Proof. unfold hourly_rate. now rewrite get_HEATING_RATES, BASE_RATE_value. Qed.

Lemma gas_rate_of_month_spec (m : Z) : gas_rate_of_month m = 0.34 + surcharge m.
Proof. unfold gas_rate_of_month. now rewrite get_HEATING_RATES. Qed.

Lemma baseline_rows (indoor outdoor : TimeSeries) :
  calculate_energy_consumption indoor outdoor
  = map (fun row => (fst row, hourly_rate (month (fst row)))) indoor.
Proof.
  unfold calculate_energy_consumption, times.
  induction indoor as [|row indoor IH]; simpl; [reflexivity|].
  now rewrite IH.
Qed.

Lemma baseline_total (indoor outdoor : TimeSeries) :
  calculate_total_energy (calculate_energy_consumption indoor outdoor)
  == sum (map (fun row => 2.42 + surcharge (month (fst row))) indoor).
Proof.
  rewrite baseline_rows. unfold calculate_total_energy, energy_column.
  rewrite map_map. apply sum_map_ext. intros row _. apply hourly_rate_spec.
Qed.

Lemma baseline_gas (indoor outdoor : TimeSeries) :
  gas_energy_kwh (calculate_energy_consumption indoor outdoor)
  = sum (map (fun row => 0.34 + surcharge (month (fst row))) indoor).
Proof.
  rewrite baseline_rows. unfold gas_energy_kwh. rewrite !map_map. simpl.
  f_equal. apply map_ext. intros row. apply gas_rate_of_month_spec.
Qed.

Lemma baseline_electric (indoor outdoor : TimeSeries) :
  electric_energy_kwh (calculate_energy_consumption indoor outdoor)
  = len indoor * 2.08.
Proof.
  rewrite baseline_rows. unfold electric_energy_kwh. now rewrite len_map.
Qed.

End Baseline.

Section BaselineClaims.
Import EnergyCalculator.

Lemma baseline_decomposition (indoor outdoor : TimeSeries) :
  let energy_df := calculate_energy_consumption indoor outdoor in
  electric_energy_kwh energy_df + gas_energy_kwh energy_df
  == calculate_total_energy energy_df.
Proof.
  cbv zeta. rewrite baseline_total, baseline_gas, baseline_electric.
  rewrite <- (sum_map_const 2.08 indoor), <- sum_map_plus.
  apply sum_map_ext. intros row _. ring.
Qed.

Lemma baseline_gas_lower (indoor : TimeSeries) :
  len indoor * 0.34
  <= sum (map (fun row => 0.34 + surcharge (month (fst row))) indoor).
Proof.
  rewrite <- (sum_map_const 0.34 indoor). apply sum_map_le.
  intros row _. cbv beta. assert (H := surcharge_nonneg (month (fst row))). lra.
Qed.

Lemma sum_january (indoor : TimeSeries) (c : Q) :
  Forall (fun row => month (fst row) = 1%Z) indoor ->
  sum (map (fun row => c + surcharge (month (fst row))) indoor)
  == len indoor * (c + 6.67).
Proof.
  intros H. rewrite <- sum_map_const. apply sum_map_ext.
  intros row Hrow. rewrite Forall_forall in H. rewrite (H row Hrow). reflexivity.
Qed.

(** C2: the baseline model gives one energy sample per input timestamp,
    of value 2.42 + surcharge(month of the timestamp); so the rate is 9.09
    in January and 2.42 in July; the output depends on the timestamps of
    the indoor frame only, not on its values nor on the outdoor frame. *)
Theorem baseline_energy_by_month (indoor outdoor : TimeSeries) :
  series_eq (calculate_energy_consumption indoor outdoor)
            (map (fun row => (fst row, 2.42 + surcharge (month (fst row)))) indoor)
  /\ times (calculate_energy_consumption indoor outdoor) = times indoor
  /\ hourly_rate 1 == 9.09
  /\ hourly_rate 7 == 2.42
  /\ (forall indoor' outdoor' : TimeSeries,
        times indoor' = times indoor ->
        calculate_energy_consumption indoor' outdoor'
        = calculate_energy_consumption indoor outdoor).
Proof.
  repeat split.
  - rewrite baseline_rows. unfold series_eq.
    induction indoor as [|row rest IH]; simpl; constructor; [|exact IH].
    split; [reflexivity|]. apply hourly_rate_spec.
  - rewrite baseline_rows. unfold times. rewrite map_map. reflexivity.
  - intros indoor' outdoor' H. rewrite !baseline_rows.
    rewrite <- (map_map fst (fun t => (t, hourly_rate (month t))) indoor').
    rewrite <- (map_map fst (fun t => (t, hourly_rate (month t))) indoor).
    unfold times in H. now rewrite H.
Qed.

Lemma baseline_energy_by_month_witness :
  times [(jan_2024, 18); (jul_2024, 25)] = times [(jan_2024, 21); (jul_2024, 30)]
  /\ calculate_energy_consumption [(jan_2024, 18); (jul_2024, 25)] []
     = calculate_energy_consumption [(jan_2024, 21); (jul_2024, 30)] [(jan_2024, 3)].
Proof.
  split; [reflexivity|].
  apply (baseline_energy_by_month [(jan_2024, 21); (jul_2024, 30)] [(jan_2024, 3)]).
  reflexivity.
Defined.

(** C3: the cost reported by [calculate_all_metrics] is the electric
    component count * 2.08 * 0.15 plus the gas component
    sum (0.34 + surcharge(month)) * 0.0226; on a frame with at least one
    row it differs from total_energy_kwh * 0.15; for 100 rows in January
    the total energy is 909 and the cost is
    100*2.08*0.15 + 100*(0.34+6.67)*0.0226. *)
Theorem baseline_cost_breakdown (indoor outdoor : TimeSeries) (electricity_rate : Q) :
  let m := calculate_all_metrics indoor outdoor electricity_rate in
  cost_usd m
  == len indoor * 2.08 * 0.15
     + sum (map (fun row => (0.34 + surcharge (month (fst row))) * 0.0226) indoor)
  /\ (indoor <> [] -> ~ cost_usd m == total_energy_kwh m * 0.15)
  /\ (List.length indoor = 100%nat ->
      Forall (fun row => month (fst row) = 1%Z) indoor ->
      total_energy_kwh m == 909
      /\ cost_usd m == 100 * 2.08 * 0.15 + 100 * (0.34 + 6.67) * 0.0226).
Proof.
  cbv zeta. unfold calculate_all_metrics. cbn [cost_usd total_energy_kwh].
  rewrite baseline_gas, baseline_electric, baseline_total.
  unfold ELECTRIC_RATE, GAS_RATE.
  split; [|split].
  - rewrite sum_map_scale. reflexivity.
  - intros Hne.
    assert (Hlen : 1 <= len indoor).
    { destruct indoor as [|row rest]; [congruence|].
      rewrite len_cons. assert (H := len_nonneg rest). lra. }
    assert (Hgas := baseline_gas_lower indoor).
    assert (Htot :
      sum (map (fun row => 2.42 + surcharge (month (fst row))) indoor)
      == len indoor * 2.08
         + sum (map (fun row => 0.34 + surcharge (month (fst row))) indoor)).
    { rewrite <- (sum_map_const 2.08 indoor), <- sum_map_plus.
      apply sum_map_ext. intros row _. ring. }
    rewrite Htot. lra.
  - intros Hlen Hjan.
    rewrite !(sum_january indoor _ Hjan).
    unfold len. rewrite Hlen. split; reflexivity.
Qed.

Lemma january_samples :
  Forall (fun row => month (fst row) = 1%Z) (hourly_samples jan_2024 100 20).
Proof.
  apply Forall_forall. intros row Hrow.
  apply Z.eqb_eq.
  revert row Hrow. apply forallb_forall. vm_compute. reflexivity.
Qed.

Lemma baseline_cost_breakdown_witness :
  let m := calculate_all_metrics (hourly_samples jan_2024 100 20) [] 0.15 in
  hourly_samples jan_2024 100 20 <> []
  /\ List.length (hourly_samples jan_2024 100 20) = 100%nat
  /\ Forall (fun row => month (fst row) = 1%Z) (hourly_samples jan_2024 100 20)
  /\ ~ cost_usd m == total_energy_kwh m * 0.15
  /\ total_energy_kwh m == 909
  /\ cost_usd m == 100 * 2.08 * 0.15 + 100 * (0.34 + 6.67) * 0.0226.
Proof.
  cbv zeta.
  assert (Hne : hourly_samples jan_2024 100 20 <> []) by discriminate.
  assert (Hlen : List.length (hourly_samples jan_2024 100 20) = 100%nat)
    by reflexivity.
  destruct (baseline_cost_breakdown (hourly_samples jan_2024 100 20) [] 0.15)
    as (_ & Hnot & Hjan).
  destruct (Hjan Hlen january_samples) as [Htot Hcost].
  exact (conj Hne (conj Hlen (conj january_samples
           (conj (Hnot Hne) (conj Htot Hcost))))).
Defined.

(** C10: inside [calculate_all_metrics] the electric energy
    count * 2.08 plus the gas energy sum (0.34 + surcharge(month)) is the
    reported total sum (2.42 + surcharge(month)). *)
Theorem baseline_energy_decomposition (indoor outdoor : TimeSeries) (electricity_rate : Q) :
  let energy_df := calculate_energy_consumption indoor outdoor in
  let m := calculate_all_metrics indoor outdoor electricity_rate in
  electric_energy_kwh energy_df == len indoor * 2.08
  /\ gas_energy_kwh energy_df
     == sum (map (fun row => 0.34 + surcharge (month (fst row))) indoor)
  /\ total_energy_kwh m
     == sum (map (fun row => 2.42 + surcharge (month (fst row))) indoor)
  /\ electric_energy_kwh energy_df + gas_energy_kwh energy_df == total_energy_kwh m
  /\ cost_usd m
     == electric_energy_kwh energy_df * 0.15 + gas_energy_kwh energy_df * 0.0226.
Proof.
  cbv zeta. unfold calculate_all_metrics. cbn [cost_usd total_energy_kwh].
  repeat split.
  - now rewrite baseline_electric.
  - now rewrite baseline_gas.
  - apply baseline_total.
  - apply baseline_decomposition.
Qed.

(** C7: cost = energy * rate (default 0.15), co2 = energy * intensity
    (default 0.417), distance = co2 / intensity (default 0.222); with the
    defaults, cost, co2 and the distance of the co2 are 0 at energy 0 and
    strictly increasing in the energy. *)
Theorem metrics_linear_and_monotone :
  (forall e rate, calculate_cost e rate == e * rate)
  /\ (forall e k, calculate_co2_emissions e k == e * k)
  /\ (forall c k, calculate_equivalent_km_driven c k == c / k)
  /\ DEFAULT_electricity_rate == 0.15
  /\ DEFAULT_co2_per_kwh == 0.417
  /\ DEFAULT_kg_per_km == 0.222
  /\ calculate_cost 0 DEFAULT_electricity_rate == 0
  /\ calculate_co2_emissions 0 DEFAULT_co2_per_kwh == 0
  /\ calculate_equivalent_km_driven
       (calculate_co2_emissions 0 DEFAULT_co2_per_kwh) DEFAULT_kg_per_km == 0
  /\ (forall e1 e2, 0 <= e1 -> e1 < e2 ->
      calculate_cost e1 DEFAULT_electricity_rate
      < calculate_cost e2 DEFAULT_electricity_rate
      /\ calculate_co2_emissions e1 DEFAULT_co2_per_kwh
         < calculate_co2_emissions e2 DEFAULT_co2_per_kwh
      /\ calculate_equivalent_km_driven
           (calculate_co2_emissions e1 DEFAULT_co2_per_kwh) DEFAULT_kg_per_km
         < calculate_equivalent_km_driven
             (calculate_co2_emissions e2 DEFAULT_co2_per_kwh) DEFAULT_kg_per_km).
Proof.
  unfold calculate_cost, calculate_co2_emissions, calculate_equivalent_km_driven,
    DEFAULT_electricity_rate, DEFAULT_co2_per_kwh, DEFAULT_kg_per_km.
  repeat match goal with |- _ /\ _ => split end; try reflexivity.
  intros e1 e2 H0 Hlt. repeat split.
  - lra.
  - lra.
  - unfold Qdiv. apply Qmult_lt_compat_r; [reflexivity|]. lra.
Qed.

Lemma metrics_linear_and_monotone_witness :
  0 <= 1 /\ 1 < 2
  /\ calculate_cost 1 DEFAULT_electricity_rate
     < calculate_cost 2 DEFAULT_electricity_rate.
Proof.
  assert (H0 : 0 <= 1) by discriminate.
  assert (H1 : 1 < 2) by reflexivity.
  split; [exact H0|]. split; [exact H1|].
  destruct metrics_linear_and_monotone as (_ & _ & _ & _ & _ & _ & _ & _ & _ & H).
  exact (proj1 (H 1 2 H0 H1)).
Defined.

End BaselineClaims.

(** ** The thermal model *)

Section Thermal.
Import MPCCalculator.

Lemma clip_lower_max (x : Q) : clip_lower 0 x == Qmax 0 x.
Proof.
  unfold clip_lower. destruct (Qlt_le_dec x 0) as [H|H].
  - symmetry. apply Q.max_l. now apply Qlt_le_weak.
  - symmetry. now apply Q.max_r.
Qed.

Lemma clip_lower_nonneg (x : Q) : 0 <= clip_lower 0 x.
Proof.
  unfold clip_lower. destruct (Qlt_le_dec x 0); [apply Qle_refl | assumption].
Qed.

Lemma select_source_coefficients (m : ThermalMode) (c : ControlStrategy) :
  (select_c1 (mode_name m) (strategy_name c), select_c2 (mode_name m))
  = source_coefficients m c.
Proof. destruct m, c; reflexivity. Qed.

Lemma mem_In (t : Timestamp) (ts : list Timestamp) : mem t ts = true <-> In t ts.
Proof.
  unfold mem. rewrite existsb_exists. split.
  - intros (x & Hx & E). apply Z.eqb_eq in E. now subst.
  - intros H. exists t. split; [assumption | apply Z.eqb_refl].
Qed.

Lemma In_merge (left right : TimeSeries) (t : Timestamp) (vin vout : Q) :
  In (t, (vin, vout)) (merge left right)
  <-> In (t, vin) left /\ In (t, vout) right.
Proof.
  unfold merge. rewrite in_flat_map. split.
  - intros ([tl vl] & Hl & H). rewrite in_map_iff in H.
    destruct H as ([tr vr] & E & Hr). rewrite filter_In in Hr.
    destruct Hr as [Hr Ht]. simpl in *. apply Z.eqb_eq in Ht.
    inversion E; subst. now split.
  - intros [Hl Hr]. exists (t, vin). split; [assumption|].
    rewrite in_map_iff. exists (t, vout). split; [reflexivity|].
    rewrite filter_In. split; [assumption | apply Z.eqb_refl].
Qed.

Lemma matches_of_unique_key (right : TimeSeries) (t : Timestamp) :
  NoDup (times right) ->
  map fst (filter (fun r => Z.eqb (fst r) t) right)
  = if mem t (times right) then [t] else [].
Proof.
  unfold times, mem. induction right as [|[tr vr] right IH]; intros Hnd.
  - reflexivity.
  - cbn [map] in Hnd. inversion Hnd as [|? ? Hnotin Hnd']; subst.
    cbn [filter map fst existsb]. rewrite (Z.eqb_sym t tr).
    destruct (Z.eqb_spec tr t) as [->|Hne].
    + cbn [map fst orb]. f_equal. rewrite (IH Hnd').
      destruct (existsb (Z.eqb t) (map fst right)) eqn:E; [|reflexivity].
      exfalso. apply Hnotin. now apply (mem_In t (map fst right)).
    + cbn [orb]. apply (IH Hnd').
Qed.

Lemma times_matches (l : TimeSample) (right : TimeSeries) :
  map fst (map (fun r : TimeSample => (fst l, (snd l, snd r)))
               (filter (fun r => Z.eqb (fst r) (fst l)) right))
  = map fst (filter (fun r => Z.eqb (fst r) (fst l)) right).
Proof.
  induction right as [|r right IH]; [reflexivity|].
  cbn [filter].
  match goal with |- context [Z.eqb ?a ?b] =>
    destruct (Z.eqb_spec a b) as [E|_]; [|exact IH] end.
  cbn [map fst]. now rewrite IH, E.
Qed.

Lemma times_merge (left right : TimeSeries) :
  NoDup (times right) ->
  times (merge left right) = filter (fun t => mem t (times right)) (times left).
Proof.
  intros Hnd. unfold merge, times.
  induction left as [|l left IH]; [reflexivity|].
  cbn [flat_map map filter]. rewrite map_app, IH, times_matches.
  rewrite (matches_of_unique_key right (fst l) Hnd). unfold times.
  destruct (mem (fst l) (map fst right)); reflexivity.
Qed.

Lemma times_energy (c1 c2 : Q) (merged : list MergedRow) :
  times (map (energy_of_row c1 c2) merged) = times merged.
Proof. unfold times. rewrite map_map. reflexivity. Qed.

End Thermal.

Section ThermalClaims.
Import MPCCalculator.

Lemma energy_column_thermal (c1 c2 : Q) (merged : list MergedRow) :
  energy_column (map (energy_of_row c1 c2) merged)
  = map (fun row => snd (energy_of_row c1 c2 row)) merged.
Proof. unfold energy_column. now rewrite map_map. Qed.

Lemma In_thermal (indoor outdoor : TimeSeries) (mode control_type : string)
  (t : Timestamp) (e : Q) :
  In (t, e) (calculate_energy_consumption indoor outdoor mode control_type)
  <-> exists vin vout,
        In (t, vin) indoor /\ In (t, vout) outdoor
        /\ e = clip_lower 0 (select_c1 mode control_type * (vin - vout)
                             + select_c2 mode).
Proof.
  unfold calculate_energy_consumption. rewrite in_map_iff. split.
  - intros ([t' [vin vout]] & E & H). unfold energy_of_row in E.
    cbn [fst snd] in E. inversion E; subst.
    apply In_merge in H. destruct H as [Hi Ho]. now exists vin, vout.
  - intros (vin & vout & Hi & Ho & ->). exists (t, (vin, vout)).
    split; [reflexivity|]. now apply In_merge.
Qed.

(** C1, with the constants of the source: on frames whose timestamps are
    unique, the thermal model returns exactly one sample for each timestamp
    present in both frames, in the order of the indoor frame, and nothing
    else; each energy value is max(0, C1 * (T_indoor - T_outdoor) + C2)
    with (C1, C2) taken by mode and strategy from heating/RBC
    (0.1958333333, -8), heating/MPC (0.1595833333, -8), cooling/RBC
    (0.1266666667, 6.4), cooling/MPC (0.1091666667, 6.4); no energy value
    is negative. *)
Theorem thermal_energy_inner_join
  (indoor outdoor : TimeSeries) (m : ThermalMode) (c : ControlStrategy) :
  NoDup (times indoor) -> NoDup (times outdoor) ->
  let out :=
    calculate_energy_consumption indoor outdoor (mode_name m) (strategy_name c) in
  times out = filter (fun t => mem t (times outdoor)) (times indoor)
  /\ NoDup (times out)
  /\ (forall t, In t (times out) <-> In t (times indoor) /\ In t (times outdoor))
  /\ (forall t e, In (t, e) out ->
        exists vin vout,
          In (t, vin) indoor /\ In (t, vout) outdoor
          /\ e == linear_clipped (source_coefficients m c) vin vout)
  /\ (forall t vin vout, In (t, vin) indoor -> In (t, vout) outdoor ->
        exists e, In (t, e) out
                  /\ e == linear_clipped (source_coefficients m c) vin vout)
  /\ (forall t e, In (t, e) out -> 0 <= e).
Proof.
  intros Hin Hout. cbv zeta.
  assert (Htimes :
    times (calculate_energy_consumption indoor outdoor (mode_name m) (strategy_name c))
    = filter (fun t => mem t (times outdoor)) (times indoor)).
  { unfold calculate_energy_consumption. rewrite times_energy.
    now apply times_merge. }
  assert (Hcoef := select_source_coefficients m c).
  split; [exact Htimes|]. split; [|split; [|split; [|split]]].
  - rewrite Htimes. now apply NoDup_filter.
  - intros t. rewrite Htimes, filter_In, mem_In. reflexivity.
  - intros t e H. apply In_thermal in H. destruct H as (vin & vout & Hi & Ho & ->).
    exists vin, vout. repeat split; try assumption.
    rewrite clip_lower_max. unfold linear_clipped. rewrite <- Hcoef. reflexivity.
  - intros t vin vout Hi Ho. eexists. split.
    + apply In_thermal. exists vin, vout. repeat split; eassumption.
    + rewrite clip_lower_max. unfold linear_clipped. rewrite <- Hcoef. reflexivity.
  - intros t e H. apply In_thermal in H. destruct H as (vin & vout & _ & _ & ->).
    apply clip_lower_nonneg.
Qed.

Lemma thermal_energy_inner_join_witness :
  NoDup (times [(0%Z, 30); (3600%Z, 25); (7200%Z, 20)])
  /\ NoDup (times [(3600%Z, 5); (7200%Z, 20); (10800%Z, 0)])
  /\ times (calculate_energy_consumption
              [(0%Z, 30); (3600%Z, 25); (7200%Z, 20)]
              [(3600%Z, 5); (7200%Z, 20); (10800%Z, 0)] "cooling" "mpc")
     = [3600%Z; 7200%Z].
Proof.
  assert (H1 : NoDup (times [(0%Z, 30); (3600%Z, 25); (7200%Z, 20)])).
  { repeat constructor; simpl; intuition discriminate. }
  assert (H2 : NoDup (times [(3600%Z, 5); (7200%Z, 20); (10800%Z, 0)])).
  { repeat constructor; simpl; intuition discriminate. }
  split; [exact H1|]. split; [exact H2|].
  exact (proj1 (thermal_energy_inner_join _ _ Cooling MPC H1 H2)).
Defined.

(** C1 as printed fails: with the eight-digit heating/RBC coefficient
    0.19583333 the value for 100 degrees indoor and 0 outdoor would be
    11.583333, and the code returns 11.58333333. *)
Lemma thermal_spec_table_counterexample :
  ~ (forall t e,
       In (t, e) (calculate_energy_consumption [(0%Z, 100)] [(0%Z, 0)]
                    (mode_name Heating) (strategy_name RBC)) ->
       e == linear_clipped (spec_coefficients Heating RBC) 100 0).
Proof.
  intros H. specialize (H 0%Z _ (or_introl eq_refl)).
  vm_compute in H. discriminate H.
Qed.

(** C4: the total savings are (sum of the RBC energies - sum of the MPC
    energies) / 1000. *)
Theorem total_energy_savings_formula (mpc_energy_df rbc_energy_df : EnergySeries) :
  calculate_total_energy_savings mpc_energy_df rbc_energy_df
  == (sum (map snd rbc_energy_df) - sum (map snd mpc_energy_df)) / 1000.
Proof. unfold calculate_total_energy_savings, energy_column. reflexivity. Qed.

(** C5, as the code has it: the thermal model never fails on its mode or
    control type; every mode other than 'heating' is computed as
    'cooling' and every control type other than 'mpc' as 'rbc'. *)
Theorem thermal_mode_fallback
  (indoor outdoor : TimeSeries) (mode control_type : string) :
  run_calculate_energy_consumption indoor outdoor mode control_type
  = Returned (calculate_energy_consumption indoor outdoor
                (if String.eqb mode "heating" then "heating" else "cooling")
                (if String.eqb control_type "mpc" then "mpc" else "rbc")).
Proof.
  unfold run_calculate_energy_consumption, calculate_energy_consumption,
    select_c1, select_c2.
  destruct (String.eqb mode "heating"), (String.eqb control_type "mpc");
    reflexivity.
Qed.

(** C5 as stated fails: mode 'off' with control type 'pid' does not raise;
    the call returns the cooling/RBC energies. *)
Lemma thermal_invalid_mode_counterexample :
  ~ (forall mode control_type,
       ~ (valid_mode mode /\ valid_control_type control_type) ->
       exists error,
         run_calculate_energy_consumption [(0%Z, 30)] [(0%Z, 10)] mode control_type
         = Raised error).
Proof.
  intros H. destruct (H "off"%string "pid"%string) as [error E].
  - intros [[Hm|Hm] _]; discriminate Hm.
  - discriminate E.
Qed.

Lemma heating_dominance (delta : Q) :
  clip_lower 0 (MPC_C1_HEATING * delta + C2_HEATING)
  <= clip_lower 0 (RBC_C1_HEATING * delta + C2_HEATING).
Proof.
  unfold clip_lower, MPC_C1_HEATING, RBC_C1_HEATING, C2_HEATING.
  destruct (Qlt_le_dec _ 0), (Qlt_le_dec _ 0); lra.
Qed.

(** C9: in heating mode the clipped RBC energy max(0, 0.1958333333*d - 8)
    is at least the clipped MPC energy max(0, 0.1595833333*d - 8) for every
    temperature difference d, row by row in the code, so the energy savings
    of [calculate_all_savings_metrics] in heating mode are never negative;
    in cooling mode the dominance fails for a negative difference. *)
Theorem heating_savings_nonneg :
  (forall delta,
     Qmax 0 (0.1595833333 * delta - 8) <= Qmax 0 (0.1958333333 * delta - 8))
  /\ (forall row : MergedRow,
        snd (energy_of_row (select_c1 "heating" "mpc") (select_c2 "heating") row)
        <= snd (energy_of_row (select_c1 "heating" "rbc") (select_c2 "heating") row))
  /\ (forall (indoor outdoor : TimeSeries) (electricity_rate : Q),
        0 <= energy_savings_kwh
               (calculate_all_savings_metrics indoor outdoor "heating" electricity_rate))
  /\ (exists delta, delta < 0
        /\ clip_lower 0 (select_c1 "cooling" "rbc" * delta + select_c2 "cooling")
           < clip_lower 0 (select_c1 "cooling" "mpc" * delta + select_c2 "cooling")).
Proof.
  split; [|split; [|split]].
  - intros delta. rewrite <- !clip_lower_max.
    assert (H := heating_dominance delta).
    unfold MPC_C1_HEATING, RBC_C1_HEATING, C2_HEATING in H.
    unfold Qminus. exact H.
  - intros row. apply heating_dominance.
  - intros indoor outdoor rate.
    unfold calculate_all_savings_metrics. cbn [energy_savings_kwh].
    unfold calculate_total_energy_savings, calculate_energy_consumption.
    rewrite !energy_column_thermal.
    assert (H :
      sum (map (fun row => snd (energy_of_row (select_c1 "heating" "mpc")
                                  (select_c2 "heating") row))
               (merge indoor outdoor))
      <= sum (map (fun row => snd (energy_of_row (select_c1 "heating" "rbc")
                                     (select_c2 "heating") row))
                  (merge indoor outdoor))).
    { apply sum_map_le. intros row _. apply heating_dominance. }
    unfold Qdiv. apply Qmult_le_0_compat; [lra | discriminate].
  - exists (-10). split; [reflexivity|]. vm_compute. reflexivity.
Qed.

(** On frames that have their columns: without indoor rows the baseline
    model returns no rows and all four metrics are 0; the thermal model
    returns no rows when either input has no rows or when the two inputs
    share no timestamp. *)
Lemma no_rows_give_no_rows :
  (forall outdoor, EnergyCalculator.calculate_energy_consumption [] outdoor = [])
  /\ (forall outdoor rate,
        let m := EnergyCalculator.calculate_all_metrics [] outdoor rate in
        EnergyCalculator.total_energy_kwh m == 0
        /\ EnergyCalculator.cost_usd m == 0
        /\ EnergyCalculator.co2_kg m == 0
        /\ EnergyCalculator.equivalent_km m == 0
        /\ EnergyCalculator.energy_df m = [])
  /\ (forall outdoor mode control_type,
        run_calculate_energy_consumption [] outdoor mode control_type = Returned [])
  /\ (forall indoor mode control_type,
        run_calculate_energy_consumption indoor [] mode control_type = Returned [])
  /\ (forall indoor outdoor mode control_type,
        (forall t, In t (times indoor) -> ~ In t (times outdoor)) ->
        run_calculate_energy_consumption indoor outdoor mode control_type
        = Returned []).
Proof.
  split; [|split; [|split; [|split]]].
  - reflexivity.
  - intros outdoor rate. cbv zeta. repeat split; reflexivity.
  - reflexivity.
  - intros indoor mode control_type.
    unfold run_calculate_energy_consumption, calculate_energy_consumption, merge.
    induction indoor as [|l indoor IH]; [reflexivity|].
    cbn [flat_map filter map app]. exact IH.
  - intros indoor outdoor mode control_type Hdisj.
    unfold run_calculate_energy_consumption. f_equal.
    destruct (calculate_energy_consumption indoor outdoor mode control_type)
      as [|[t e] rest] eqn:E; [reflexivity|].
    exfalso.
    assert (H : In (t, e)
                  (calculate_energy_consumption indoor outdoor mode control_type))
      by (rewrite E; now left).
    apply In_thermal in H. destruct H as (vin & vout & Hi & Ho & _).
    apply (Hdisj t).
    + unfold times. change t with (fst (t, vin)). now apply in_map.
    + unfold times. change t with (fst (t, vout)). now apply in_map.
Qed.

(** C6, as the code has it: on an indoor frame that has its columns and
    no rows the baseline model returns an empty energy frame and the four
    metrics are 0; the thermal model returns an empty frame when one of
    two frames with columns has no rows or when they share no timestamp;
    frames that are not empty never make a model raise.  On the frame
    without columns, the empty frame that the query layer returns, both
    models raise KeyError for ['_time']. *)
Theorem empty_frame_outcome :
  (forall outdoor,
     EnergyCalculatorDF.calculate_energy_consumption (Columns []) outdoor
     = Returned [])
  /\ (forall outdoor rate,
        exists m,
          EnergyCalculatorDF.calculate_all_metrics (Columns []) outdoor rate
          = Returned m
          /\ EnergyCalculator.total_energy_kwh m == 0
          /\ EnergyCalculator.cost_usd m == 0
          /\ EnergyCalculator.co2_kg m == 0
          /\ EnergyCalculator.equivalent_km m == 0
          /\ EnergyCalculator.energy_df m = [])
  /\ (forall outdoor mode control_type,
        MPCCalculatorDF.calculate_energy_consumption
          (Columns []) (Columns outdoor) mode control_type = Returned [])
  /\ (forall indoor mode control_type,
        MPCCalculatorDF.calculate_energy_consumption
          (Columns indoor) (Columns []) mode control_type = Returned [])
  /\ (forall indoor outdoor mode control_type,
        (forall t, In t (times indoor) -> ~ In t (times outdoor)) ->
        MPCCalculatorDF.calculate_energy_consumption
          (Columns indoor) (Columns outdoor) mode control_type = Returned [])
  /\ (forall indoor outdoor rate mode control_type,
        is_empty indoor = false -> is_empty outdoor = false ->
        (exists e, EnergyCalculatorDF.calculate_energy_consumption indoor outdoor
                   = Returned e)
        /\ (exists m, EnergyCalculatorDF.calculate_all_metrics indoor outdoor rate
                      = Returned m)
        /\ (exists e, MPCCalculatorDF.calculate_energy_consumption
                        indoor outdoor mode control_type = Returned e))
  /\ (forall outdoor,
        EnergyCalculatorDF.calculate_energy_consumption NoColumns outdoor
        = Raised KeyError_time)
  /\ (forall outdoor rate,
        EnergyCalculatorDF.calculate_all_metrics NoColumns outdoor rate
        = Raised KeyError_time)
  /\ (forall df mode control_type,
        MPCCalculatorDF.calculate_energy_consumption NoColumns df mode control_type
        = Raised KeyError_time
        /\ MPCCalculatorDF.calculate_energy_consumption df NoColumns mode control_type
           = Raised KeyError_time).
Proof.
  destruct no_rows_give_no_rows as (Hb & Hm & Ht1 & Ht2 & Ht3).
  split; [|split; [|split; [|split; [|split; [|split; [|split; [|split]]]]]]].
  - intros outdoor. cbn [EnergyCalculatorDF.calculate_energy_consumption].
    now rewrite Hb.
  - intros outdoor rate. eexists. split; [reflexivity|].
    exact (Hm (rows_of outdoor) rate).
  - intros outdoor mode control_type. apply Ht1.
  - intros indoor mode control_type. apply Ht2.
  - intros indoor outdoor mode control_type Hdisj. now apply Ht3.
  - intros [|[|r indoor]] [|[|r' outdoor]] rate mode control_type Hi Ho;
      try discriminate Hi; try discriminate Ho.
    repeat split; eexists; reflexivity.
  - reflexivity.
  - reflexivity.
  - intros [|rows] mode control_type; split; reflexivity.
Qed.

Lemma empty_frame_outcome_witness :
  (forall t, In t (times [(0%Z, 20); (3600%Z, 21)]) ->
             ~ In t (times [(1800%Z, 5); (5400%Z, 6)]))
  /\ MPCCalculatorDF.calculate_energy_consumption
       (Columns [(0%Z, 20); (3600%Z, 21)]) (Columns [(1800%Z, 5); (5400%Z, 6)])
       "heating" "mpc"
     = Returned [].
Proof.
  assert (H : forall t, In t (times [(0%Z, 20); (3600%Z, 21)]) ->
                        ~ In t (times [(1800%Z, 5); (5400%Z, 6)])).
  { simpl. intros t [<-|[<-|[]]] [E|[E|[]]]; discriminate E. }
  split; [exact H|].
  destruct empty_frame_outcome as (_ & _ & _ & _ & Hd & _).
  exact (Hd _ _ "heating"%string "mpc"%string H).
Defined.

(** C6 as stated fails: the empty frame [pd.DataFrame()] of the query
    layer makes the baseline model raise instead of returning an empty
    energy frame. *)
Lemma empty_frame_counterexample :
  ~ (forall indoor outdoor,
       is_empty indoor = true ->
       EnergyCalculatorDF.calculate_energy_consumption indoor outdoor
       = Returned []).
Proof.
  intros H. specialize (H NoColumns NoColumns eq_refl). discriminate H.
Qed.

End ThermalClaims.

(** ** The synthetic outdoor temperature generator *)

Section Generator.
Open Scope Z_scope.

Lemma In_date_range (start_date end_date freq t : Z) :
  0 < freq ->
  In t (date_range start_date end_date freq)
  <-> exists k, 0 <= k /\ t = start_date + k * freq /\ t <= end_date.
Proof.
  intros Hf. unfold date_range.
  destruct (Z.ltb_spec end_date start_date) as [Hlt|Hle].
  - split; [intros []|]. intros (k & Hk & -> & Hend). nia.
  - assert (Hq : 0 <= (end_date - start_date) / freq)
      by (apply Z.div_pos; lia).
    assert (Hm := Z.mul_div_le (end_date - start_date) freq Hf).
    rewrite in_map_iff. split.
    + intros (k & <- & Hk). apply in_seq in Hk. exists (Z.of_nat k).
      split; [lia|]. split; [reflexivity|]. nia.
    + intros (k & Hk & -> & Hend). exists (Z.to_nat k). split.
      * rewrite Z2Nat.id by assumption. reflexivity.
      * apply in_seq.
        assert (k <= (end_date - start_date) / freq)
          by (apply Z.div_le_lower_bound; lia).
        lia.
Qed.

Lemma simulate_rows (start_date end_date : Z) (base_temp amplitude : R) (freq : Z) :
  simulate_outdoor_temperature start_date end_date base_temp amplitude freq
  = map (fun t => (t, (base_temp
                       + amplitude * sin (2 * PI * (IZR (hour t) - 6) / 24))%R))
        (date_range start_date end_date freq).
Proof.
  unfold simulate_outdoor_temperature, temp_variation.
  induction (date_range start_date end_date freq) as [|t ts IH];
    [reflexivity|].
  cbn [map combine]. now rewrite IH.
Qed.

(** C8: the generator is a function of its five arguments; each value is
    base_temp + amplitude * sin(2 pi (hour - 6) / 24) for the hour of its
    timestamp; the timestamps are exactly start, start + freq,
    start + 2 freq, ... up to end, with start included and end included
    when it falls on the cadence; the frame is empty when start > end. *)
Theorem simulate_outdoor_temperature_spec
  (start_date end_date : Timestamp) (base_temp amplitude : R) (freq : Z) :
  0 < freq ->
  let df :=
    simulate_outdoor_temperature start_date end_date base_temp amplitude freq in
  df = map (fun t => (t, (base_temp
                          + amplitude * sin (2 * PI * (IZR (hour t) - 6) / 24))%R))
           (date_range start_date end_date freq)
  /\ (forall t, In t (times df)
        <-> exists k, 0 <= k /\ t = start_date + k * freq /\ t <= end_date)
  /\ (start_date <= end_date -> In start_date (times df))
  /\ (start_date <= end_date -> (freq | end_date - start_date) ->
      In end_date (times df))
  /\ (end_date < start_date -> df = [])
  /\ (forall start_date' end_date' base_temp' amplitude' freq',
        start_date' = start_date -> end_date' = end_date ->
        base_temp' = base_temp -> amplitude' = amplitude -> freq' = freq ->
        simulate_outdoor_temperature start_date' end_date' base_temp' amplitude' freq'
        = df).
Proof.
  intros Hf. cbv zeta.
  assert (Ht : forall t,
    In t (times (simulate_outdoor_temperature start_date end_date
                   base_temp amplitude freq))
    <-> exists k, 0 <= k /\ t = start_date + k * freq /\ t <= end_date).
  { intros t. rewrite simulate_rows. unfold times. rewrite map_map. cbn [fst].
    rewrite map_id. now apply In_date_range. }
  split; [apply simulate_rows|]. split; [exact Ht|].
  split; [|split; [|split]].
  - intros Hle. apply Ht. exists 0. lia.
  - intros Hle [k Hk]. apply Ht. exists k. nia.
  - intros Hlt. rewrite simulate_rows. unfold date_range.
    destruct (Z.ltb_spec end_date start_date); [reflexivity | lia].
  - intros ? ? ? ? ? -> -> -> -> ->. reflexivity.
Qed.

Lemma simulate_outdoor_temperature_spec_witness :
  0 < default_freq
  /\ jan_2024 <= jan_2024 + 7200
  /\ (default_freq | jan_2024 + 7200 - jan_2024)
  /\ In (jan_2024 + 7200)
        (times (simulate_outdoor_temperature jan_2024 (jan_2024 + 7200)
                  default_base_temp default_amplitude default_freq)).
Proof.
  assert (Hf : 0 < default_freq) by reflexivity.
  assert (Hle : jan_2024 <= jan_2024 + 7200) by discriminate.
  assert (Hd : (default_freq | jan_2024 + 7200 - jan_2024))
    by (exists 2; reflexivity).
  split; [exact Hf|]. split; [exact Hle|]. split; [exact Hd|].
  destruct (simulate_outdoor_temperature_spec jan_2024 (jan_2024 + 7200)
              default_base_temp default_amplitude default_freq Hf)
    as (_ & _ & _ & Hend & _).
  exact (Hend Hle Hd).
Defined.

End Generator.

(** ** Sample evaluations *)

Example month_jan_2024 : month jan_2024 = 1%Z.
Proof. reflexivity. Qed.

Example month_jul_2024 : month jul_2024 = 7%Z /\ hour jul_2024 = 9%Z.
Proof. split; reflexivity. Qed.

Example month_around_leap_day :
  month (jan_2024 - 1) = 12%Z
  /\ month (jan_2024 + 59 * 86400) = 2%Z
  /\ month (jan_2024 + 60 * 86400) = 3%Z.
Proof. repeat split; reflexivity. Qed.

Example date_range_hourly :
  date_range 0 7200 3600 = [0; 3600; 7200]%Z
  /\ date_range 0 7199 3600 = [0; 3600]%Z
  /\ date_range 1 0 3600 = [].
Proof. repeat split; reflexivity. Qed.

(** indoor 25, outdoor 5, heating, RBC: 0.1958333333 * 20 - 8 < 0, clipped. *)
Example heating_rbc_clipped :
  MPCCalculator.calculate_energy_consumption [(0%Z, 25)] [(0%Z, 5)] "heating" "rbc"
  = [(0%Z, 0)].
Proof. reflexivity. Qed.

(** indoor 30, outdoor 10, cooling, MPC: 0.1091666667 * 20 + 6.4. *)
Example cooling_mpc_not_clipped :
  series_eq
    (MPCCalculator.calculate_energy_consumption [(0%Z, 30)] [(0%Z, 10)] "cooling" "mpc")
    [(0%Z, 8.583333334)].
Proof. repeat constructor. Qed.

(** A timestamp that occurs twice in a frame is joined twice. *)
Example merge_duplicate_timestamps :
  times (MPCCalculator.calculate_energy_consumption
           [(0%Z, 30)] [(0%Z, 10); (0%Z, 12)] "cooling" "mpc")
  = [0%Z; 0%Z].
Proof. reflexivity. Qed.

Example baseline_two_months :
  series_eq
    (EnergyCalculator.calculate_energy_consumption
       [(jan_2024, 20); (jul_2024, 24)] [])
    [(jan_2024, 9.09); (jul_2024, 2.42)].
Proof. repeat constructor. Qed.

(** * Further properties of the thermal model *)

Section ThermalExtras.
Import MPCCalculator.

Lemma sum_energy_zero (df : EnergySeries) :
  (forall t e, In (t, e) df -> e == 0) -> sum (energy_column df) == 0.
Proof.
  unfold energy_column. induction df as [|[t e] df IH]; intros H.
  - reflexivity.
  - cbn [map snd]. rewrite sum_cons, (H t e (or_introl eq_refl)), IH.
    + reflexivity.
    + intros t' e' Hin. apply (H t' e'). now right.
Qed.

Lemma unique_value_of_timestamp (df : TimeSeries) (t : Timestamp) (a b : Q) :
  NoDup (times df) -> In (t, a) df -> In (t, b) df -> a = b.
Proof.
  unfold times. induction df as [|[t' v] df IH]; intros Hnd Ha Hb; [destruct Ha|].
  cbn [map fst] in Hnd. inversion Hnd as [|? ? Hnotin Hnd']; subst.
  destruct Ha as [Ea|Ha], Hb as [Eb|Hb].
  - congruence.
  - inversion Ea; subst. exfalso. apply Hnotin.
    change t with (fst (t, b)). now apply in_map.
  - inversion Eb; subst. exfalso. apply Hnotin.
    change t with (fst (t, a)). now apply in_map.
  - now apply IH.
Qed.

Lemma filter_all {A : Type} (f : A -> bool) (l : list A) :
  (forall x, In x l -> f x = true) -> filter f l = l.
Proof.
  induction l as [|a l IH]; intros H; [reflexivity|].
  cbn [filter]. rewrite (H a (or_introl eq_refl)). f_equal.
  apply IH. intros x Hx. apply H. now right.
Qed.

Lemma times_thermal (indoor outdoor : TimeSeries) (mode control_type : string) :
  times (calculate_energy_consumption indoor outdoor mode control_type)
  = times (merge indoor outdoor).
Proof. unfold calculate_energy_consumption. apply times_energy. Qed.

Lemma select_c1_positive (mode control_type : string) :
  0 < select_c1 mode control_type.
Proof.
  unfold select_c1.
  destruct (String.eqb mode "heating"), (String.eqb control_type "mpc");
    reflexivity.
Qed.

Lemma savings_of_sums (indoor outdoor : TimeSeries) (mode : string) (rate : Q) :
  energy_savings_kwh (calculate_all_savings_metrics indoor outdoor mode rate)
  = (sum (map (fun row => snd (energy_of_row (select_c1 mode "rbc")
                                 (select_c2 mode) row)) (merge indoor outdoor))
     - sum (map (fun row => snd (energy_of_row (select_c1 mode "mpc")
                                   (select_c2 mode) row)) (merge indoor outdoor)))
    / 1000.
Proof.
  unfold calculate_all_savings_metrics. cbn [energy_savings_kwh].
  unfold calculate_total_energy_savings, calculate_energy_consumption.
  now rewrite !energy_column_thermal.
Qed.

(** X1: in heating mode every matched pair whose indoor temperature is at
    most 40 degrees above the outdoor one gives the energy 0, for either
    control type, so the energy savings are 0 as well. *)
Theorem heating_dead_zone
  (indoor outdoor : TimeSeries) (control_type : string) (electricity_rate : Q) :
  (forall t vin vout, In (t, vin) indoor -> In (t, vout) outdoor ->
                      vin - vout <= 40) ->
  (forall t e,
     In (t, e) (calculate_energy_consumption indoor outdoor "heating" control_type) ->
     e = 0)
  /\ energy_savings_kwh
       (calculate_all_savings_metrics indoor outdoor "heating" electricity_rate)
     == 0.
Proof.
  intros Hclose.
  assert (Hzero : forall ct t e,
    In (t, e) (calculate_energy_consumption indoor outdoor "heating" ct) -> e = 0).
  { intros ct t e H. apply In_thermal in H.
    destruct H as (vin & vout & Hi & Ho & ->).
    assert (Hd := Hclose t vin vout Hi Ho).
    unfold select_c1, select_c2. cbn [String.eqb Ascii.eqb Bool.eqb].
    unfold MPC_C1_HEATING, RBC_C1_HEATING, C2_HEATING, clip_lower.
    destruct (String.eqb ct "mpc");
      (destruct (Qlt_le_dec _ 0) as [_|Hge]; [reflexivity | exfalso; lra]). }
  split; [apply Hzero|].
  unfold calculate_all_savings_metrics. cbn [energy_savings_kwh].
  unfold calculate_total_energy_savings.
  rewrite !sum_energy_zero.
  - reflexivity.
  - intros t e H. now rewrite (Hzero _ t e H).
  - intros t e H. now rewrite (Hzero _ t e H).
Qed.

Lemma heating_dead_zone_witness :
  (forall t vin vout,
     In (t, vin) [(0%Z, 70); (3600%Z, 68)] ->
     In (t, vout) [(0%Z, 41); (3600%Z, 30)] -> vin - vout <= 40)
  /\ energy_savings_kwh
       (calculate_all_savings_metrics
          [(0%Z, 70); (3600%Z, 68)] [(0%Z, 41); (3600%Z, 30)] "heating" 0.15)
     == 0.
Proof.
  assert (H : forall t vin vout,
     In (t, vin) [(0%Z, 70); (3600%Z, 68)] ->
     In (t, vout) [(0%Z, 41); (3600%Z, 30)] -> vin - vout <= 40).
  { intros t vin vout [E1|[E1|[]]] [E2|[E2|[]]];
      inversion E1; inversion E2; subst; discriminate. }
  split; [exact H|].
  exact (proj2 (heating_dead_zone _ _ "mpc"%string 0.15 H)).
Defined.

(** X2: in cooling mode a matched pair whose indoor temperature is not
    below the outdoor one is never clipped: its energy is at least 6.4,
    and exactly 6.4 when the two temperatures are equal. *)
Theorem cooling_floor
  (indoor outdoor : TimeSeries) (control_type : string) :
  ((forall t vin vout, In (t, vin) indoor -> In (t, vout) outdoor ->
                       vout <= vin) ->
   forall t e,
     In (t, e) (calculate_energy_consumption indoor outdoor "cooling" control_type) ->
     6.4 <= e)
  /\ ((forall t vin vout, In (t, vin) indoor -> In (t, vout) outdoor ->
                          vin == vout) ->
      forall t e,
        In (t, e) (calculate_energy_consumption indoor outdoor "cooling" control_type) ->
        e == 6.4).
Proof.
  split; intros Hrel t e H; apply In_thermal in H;
    destruct H as (vin & vout & Hi & Ho & ->);
    assert (Hd := Hrel t vin vout Hi Ho);
    unfold select_c1, select_c2; cbn [String.eqb Ascii.eqb Bool.eqb];
    unfold MPC_C1_COOLING, RBC_C1_COOLING, C2_COOLING, clip_lower;
    destruct (String.eqb control_type "mpc");
    destruct (Qlt_le_dec _ 0); lra.
Qed.

Lemma cooling_floor_witness :
  (forall t vin vout,
     In (t, vin) [(0%Z, 30)] -> In (t, vout) [(0%Z, 10)] -> vout <= vin)
  /\ (forall t e,
        In (t, e) (calculate_energy_consumption [(0%Z, 30)] [(0%Z, 10)]
                     "cooling" "mpc") ->
        6.4 <= e).
Proof.
  assert (H : forall t vin vout,
     In (t, vin) [(0%Z, 30)] -> In (t, vout) [(0%Z, 10)] -> vout <= vin).
  { intros t vin vout [E1|[]] [E2|[]]; inversion E1; inversion E2; subst;
      discriminate. }
  split; [exact H|].
  exact (proj1 (cooling_floor [(0%Z, 30)] [(0%Z, 10)] "mpc"%string) H).
Defined.

(** X3: for every mode and control type, also the ones the code falls back
    on, a larger indoor-outdoor difference never gives a smaller energy. *)
Theorem thermal_energy_monotone (mode control_type : string) (r1 r2 : MergedRow) :
  fst (snd r1) - snd (snd r1) <= fst (snd r2) - snd (snd r2) ->
  snd (energy_of_row (select_c1 mode control_type) (select_c2 mode) r1)
  <= snd (energy_of_row (select_c1 mode control_type) (select_c2 mode) r2).
Proof.
  intros Hd. unfold energy_of_row. cbn [snd].
  assert (Hpos := select_c1_positive mode control_type).
  assert (Hmul :
    select_c1 mode control_type * (fst (snd r1) - snd (snd r1))
    <= select_c1 mode control_type * (fst (snd r2) - snd (snd r2))).
  { rewrite !(Qmult_comm (select_c1 mode control_type)).
    apply Qmult_le_compat_r; [exact Hd | now apply Qlt_le_weak]. }
  unfold clip_lower.
  destruct (Qlt_le_dec _ 0), (Qlt_le_dec _ 0); lra.
Qed.

Lemma thermal_energy_monotone_witness :
  fst (snd (0%Z, (60, 10))) - snd (snd (0%Z, (60, 10)))
  <= fst (snd (0%Z, (70, 10))) - snd (snd (0%Z, (70, 10)))
  /\ snd (energy_of_row (select_c1 "heating" "rbc") (select_c2 "heating")
            (0%Z, (60, 10)))
     <= snd (energy_of_row (select_c1 "heating" "rbc") (select_c2 "heating")
               (0%Z, (70, 10))).
Proof.
  assert (H : fst (snd (0%Z, (60, 10))) - snd (snd (0%Z, (60, 10)))
              <= fst (snd (0%Z, (70, 10))) - snd (snd (0%Z, (70, 10))))
    by discriminate.
  split; [exact H|].
  exact (thermal_energy_monotone "heating" "rbc" (0%Z, (60, 10)) (0%Z, (70, 10)) H).
Defined.

Lemma per_thousand_sign (x : Q) : x <= 0 -> x / 1000 <= 0.
Proof.
  intros H. assert (H' : 0 <= (- x) / 1000).
  { unfold Qdiv. apply Qmult_le_0_compat; [lra | discriminate]. }
  assert (E : x / 1000 == - ((- x) / 1000)) by (field).
  rewrite E. lra.
Qed.

Lemma merged_row_sources (indoor outdoor : TimeSeries) (row : MergedRow) :
  In row (merge indoor outdoor) ->
  In (fst row, fst (snd row)) indoor /\ In (fst row, snd (snd row)) outdoor.
Proof. destruct row as [t [vin vout]]. cbn [fst snd]. apply In_merge. Qed.

Lemma cooling_row_order (row : MergedRow) :
  (snd (snd row) <= fst (snd row) ->
   snd (energy_of_row (select_c1 "cooling" "mpc") (select_c2 "cooling") row)
   <= snd (energy_of_row (select_c1 "cooling" "rbc") (select_c2 "cooling") row))
  /\ (fst (snd row) <= snd (snd row) ->
      snd (energy_of_row (select_c1 "cooling" "rbc") (select_c2 "cooling") row)
      <= snd (energy_of_row (select_c1 "cooling" "mpc") (select_c2 "cooling") row)).
Proof.
  unfold energy_of_row, select_c1, select_c2.
  cbn [snd String.eqb Ascii.eqb Bool.eqb].
  unfold MPC_C1_COOLING, RBC_C1_COOLING, C2_COOLING, clip_lower.
  split; intros H; destruct (Qlt_le_dec _ 0), (Qlt_le_dec _ 0); lra.
Qed.

(** X4: in cooling mode the sign of the energy savings follows the sign of
    the temperature difference: they are not negative when no indoor value
    is below its outdoor value, and not positive when no indoor value is
    above its outdoor value. *)
Theorem cooling_savings_sign
  (indoor outdoor : TimeSeries) (electricity_rate : Q) :
  ((forall t vin vout, In (t, vin) indoor -> In (t, vout) outdoor ->
                       vout <= vin) ->
   0 <= energy_savings_kwh
          (calculate_all_savings_metrics indoor outdoor "cooling" electricity_rate))
  /\ ((forall t vin vout, In (t, vin) indoor -> In (t, vout) outdoor ->
                          vin <= vout) ->
      energy_savings_kwh
        (calculate_all_savings_metrics indoor outdoor "cooling" electricity_rate)
      <= 0).
Proof.
  rewrite savings_of_sums. split; intros Hrel.
  - assert (H :
      sum (map (fun row => snd (energy_of_row (select_c1 "cooling" "mpc")
                                  (select_c2 "cooling") row)) (merge indoor outdoor))
      <= sum (map (fun row => snd (energy_of_row (select_c1 "cooling" "rbc")
                                     (select_c2 "cooling") row)) (merge indoor outdoor))).
    { apply sum_map_le. intros row Hrow. apply cooling_row_order.
      destruct (merged_row_sources _ _ _ Hrow) as [Hi Ho].
      exact (Hrel _ _ _ Hi Ho). }
    unfold Qdiv. apply Qmult_le_0_compat; [lra | discriminate].
  - assert (H :
      sum (map (fun row => snd (energy_of_row (select_c1 "cooling" "rbc")
                                  (select_c2 "cooling") row)) (merge indoor outdoor))
      <= sum (map (fun row => snd (energy_of_row (select_c1 "cooling" "mpc")
                                     (select_c2 "cooling") row)) (merge indoor outdoor))).
    { apply sum_map_le. intros row Hrow. apply cooling_row_order.
      destruct (merged_row_sources _ _ _ Hrow) as [Hi Ho].
      exact (Hrel _ _ _ Hi Ho). }
    apply per_thousand_sign. lra.
Qed.

Lemma cooling_savings_sign_witness :
  (forall t vin vout,
     In (t, vin) [(0%Z, 20)] -> In (t, vout) [(0%Z, 30)] -> vin <= vout)
  /\ energy_savings_kwh
       (calculate_all_savings_metrics [(0%Z, 20)] [(0%Z, 30)] "cooling" 0.15)
     <= 0.
Proof.
  assert (H : forall t vin vout,
     In (t, vin) [(0%Z, 20)] -> In (t, vout) [(0%Z, 30)] -> vin <= vout).
  { intros t vin vout [E1|[]] [E2|[]]; inversion E1; inversion E2; subst;
      discriminate. }
  split; [exact H|].
  exact (proj2 (cooling_savings_sign [(0%Z, 20)] [(0%Z, 30)] 0.15) H).
Defined.

Lemma heating_sums_ordered (indoor outdoor : TimeSeries) :
  sum (map (fun row => snd (energy_of_row (select_c1 "heating" "mpc")
                              (select_c2 "heating") row)) (merge indoor outdoor))
  <= sum (map (fun row => snd (energy_of_row (select_c1 "heating" "rbc")
                                 (select_c2 "heating") row)) (merge indoor outdoor)).
Proof. apply sum_map_le. intros row _. apply heating_dominance. Qed.

(** X5: for every call of [calculate_all_savings_metrics], whatever the
    mode and the rate, the cost savings are the energy savings times the
    rate, the CO2 savings are 0.92 times the energy savings and the miles
    are the CO2 savings over 0.79; in heating mode the CO2 savings and the
    miles are never negative, and the cost savings are not negative when
    the rate is not negative. *)
Theorem savings_metrics_chain :
  (forall (indoor outdoor : TimeSeries) (mode : string) (electricity_rate : Q),
     let m := calculate_all_savings_metrics indoor outdoor mode electricity_rate in
     cost_savings_usd m == energy_savings_kwh m * electricity_rate
     /\ co2_savings_lbs m == energy_savings_kwh m * 0.92
     /\ equivalent_miles m == co2_savings_lbs m / 0.79
     /\ equivalent_miles m == energy_savings_kwh m * 0.92 / 0.79)
  /\ (forall (indoor outdoor : TimeSeries) (electricity_rate : Q),
        let m :=
          calculate_all_savings_metrics indoor outdoor "heating" electricity_rate in
        0 <= co2_savings_lbs m
        /\ 0 <= equivalent_miles m
        /\ (0 <= electricity_rate -> 0 <= cost_savings_usd m)).
Proof.
  split.
  - intros indoor outdoor mode electricity_rate. cbv zeta.
    unfold calculate_all_savings_metrics.
    cbn [energy_savings_kwh cost_savings_usd co2_savings_lbs equivalent_miles].
    unfold calculate_cost_savings, calculate_co2_savings,
      calculate_equivalent_miles_driven, DEFAULT_co2_per_kwh, DEFAULT_lbs_per_mile.
    repeat split; reflexivity.
  - intros indoor outdoor electricity_rate. cbv zeta.
    assert (Hs : 0 <= energy_savings_kwh
                        (calculate_all_savings_metrics indoor outdoor "heating"
                           electricity_rate)).
    { rewrite savings_of_sums. assert (H := heating_sums_ordered indoor outdoor).
      unfold Qdiv. apply Qmult_le_0_compat; [lra | discriminate]. }
    revert Hs. unfold calculate_all_savings_metrics.
    cbn [energy_savings_kwh cost_savings_usd co2_savings_lbs equivalent_miles].
    unfold calculate_cost_savings, calculate_co2_savings,
      calculate_equivalent_miles_driven, DEFAULT_co2_per_kwh, DEFAULT_lbs_per_mile.
    set (s := calculate_total_energy_savings _ _). intros Hs.
    split; [|split].
    + apply Qmult_le_0_compat; [assumption | discriminate].
    + unfold Qdiv. apply Qmult_le_0_compat; [|discriminate].
      apply Qmult_le_0_compat; [assumption | discriminate].
    + intros Hrate. now apply Qmult_le_0_compat.
Qed.

Lemma savings_metrics_chain_witness :
  0 <= 0.15
  /\ 0 <= cost_savings_usd
            (calculate_all_savings_metrics
               [(0%Z, 70)] [(0%Z, 10)] "heating" 0.15).
Proof.
  assert (H : 0 <= 0.15) by discriminate.
  split; [exact H|].
  destruct (proj2 savings_metrics_chain [(0%Z, 70)] [(0%Z, 10)] 0.15)
    as (_ & _ & Hc).
  exact (Hc H).
Defined.

(** X6: on frames with unique timestamps the comparison frame built from
    the two energy frames of [calculate_all_savings_metrics] keeps exactly
    the timestamps of the MPC frame, each once, and each of its rows holds
    the MPC and the RBC energy of one and the same indoor/outdoor pair. *)
Theorem comparison_df_aligned
  (indoor outdoor : TimeSeries) (mode : string) (electricity_rate : Q) :
  NoDup (times indoor) -> NoDup (times outdoor) ->
  let m := calculate_all_savings_metrics indoor outdoor mode electricity_rate in
  let cmp := create_mpc_comparison_df (mpc_energy m) (rbc_energy m) in
  times cmp = times (mpc_energy m)
  /\ NoDup (times cmp)
  /\ (forall t e_mpc e_rbc, In (t, (e_mpc, e_rbc)) cmp ->
        exists vin vout,
          In (t, vin) indoor /\ In (t, vout) outdoor
          /\ e_mpc = clip_lower 0 (select_c1 mode "mpc" * (vin - vout) + select_c2 mode)
          /\ e_rbc = clip_lower 0 (select_c1 mode "rbc" * (vin - vout) + select_c2 mode)).
Proof.
  intros Hin Hout. cbv zeta.
  unfold calculate_all_savings_metrics. cbn [mpc_energy rbc_energy].
  unfold create_mpc_comparison_df.
  assert (Hsame :
    times (calculate_energy_consumption indoor outdoor mode "rbc")
    = times (calculate_energy_consumption indoor outdoor mode "mpc"))
    by now rewrite !times_thermal.
  assert (Hnd : NoDup (times (calculate_energy_consumption indoor outdoor mode "mpc"))).
  { rewrite times_thermal, (times_merge _ _ Hout). now apply NoDup_filter. }
  assert (Htimes :
    times (merge (calculate_energy_consumption indoor outdoor mode "mpc")
                 (calculate_energy_consumption indoor outdoor mode "rbc"))
    = times (calculate_energy_consumption indoor outdoor mode "mpc")).
  { rewrite times_merge by (rewrite Hsame; exact Hnd).
    apply filter_all. intros t Ht. apply mem_In. now rewrite Hsame. }
  split; [exact Htimes|]. split; [now rewrite Htimes|].
  intros t e_mpc e_rbc H. apply In_merge in H. destruct H as [Hm Hr].
  apply In_thermal in Hm. destruct Hm as (vin & vout & Hi & Ho & ->).
  apply In_thermal in Hr. destruct Hr as (vin' & vout' & Hi' & Ho' & ->).
  rewrite (unique_value_of_timestamp indoor t vin' vin Hin Hi' Hi).
  rewrite (unique_value_of_timestamp outdoor t vout' vout Hout Ho' Ho).
  exists vin, vout. repeat split; assumption.
Qed.

Lemma comparison_df_aligned_witness :
  NoDup (times [(0%Z, 70); (3600%Z, 80)])
  /\ NoDup (times [(3600%Z, 10); (0%Z, 20)])
  /\ times (create_mpc_comparison_df
              (mpc_energy (calculate_all_savings_metrics
                             [(0%Z, 70); (3600%Z, 80)] [(3600%Z, 10); (0%Z, 20)]
                             "heating" 0.15))
              (rbc_energy (calculate_all_savings_metrics
                             [(0%Z, 70); (3600%Z, 80)] [(3600%Z, 10); (0%Z, 20)]
                             "heating" 0.15)))
     = [0%Z; 3600%Z].
Proof.
  assert (H1 : NoDup (times [(0%Z, 70); (3600%Z, 80)])).
  { repeat constructor; simpl; intuition discriminate. }
  assert (H2 : NoDup (times [(3600%Z, 10); (0%Z, 20)])).
  { repeat constructor; simpl; intuition discriminate. }
  split; [exact H1|]. split; [exact H2|].
  exact (proj1 (comparison_df_aligned _ _ "heating"%string 0.15 H1 H2)).
Defined.

(** X7: the number of output rows is the number of (indoor row, outdoor
    row) pairs of equal timestamp, so a timestamp repeated in the outdoor
    frame multiplies rows; when the outdoor timestamps are unique there are
    never more output rows than indoor rows, and when in addition every
    indoor timestamp occurs in the outdoor frame no row is dropped. *)
Theorem thermal_row_count
  (indoor outdoor : TimeSeries) (mode control_type : string) :
  let out := calculate_energy_consumption indoor outdoor mode control_type in
  List.length out
  = list_sum
      (map (fun l => List.length (filter (fun r => Z.eqb (fst r) (fst l)) outdoor))
           indoor)
  /\ (NoDup (times outdoor) -> (List.length out <= List.length indoor)%nat)
  /\ (NoDup (times outdoor) ->
      (forall t, In t (times indoor) -> In t (times outdoor)) ->
      times out = times indoor).
Proof.
  cbv zeta. split; [|split].
  - unfold calculate_energy_consumption, merge. rewrite length_map.
    induction indoor as [|l indoor IH]; [reflexivity|].
    cbn [flat_map map list_sum]. now rewrite length_app, length_map, IH.
  - intros Hnd.
    rewrite <- (length_map fst (calculate_energy_consumption _ _ _ _)).
    fold (times (calculate_energy_consumption indoor outdoor mode control_type)).
    rewrite times_thermal, (times_merge _ _ Hnd).
    rewrite <- (length_map fst indoor). apply filter_length_le.
  - intros Hnd Hall. rewrite times_thermal, (times_merge _ _ Hnd).
    apply filter_all. intros t Ht. apply mem_In. now apply Hall.
Qed.

Lemma thermal_row_count_witness :
  NoDup (times [(0%Z, 5); (3600%Z, 6); (7200%Z, 7)])
  /\ (forall t, In t (times [(3600%Z, 70); (0%Z, 71)]) ->
                In t (times [(0%Z, 5); (3600%Z, 6); (7200%Z, 7)]))
  /\ times (calculate_energy_consumption
              [(3600%Z, 70); (0%Z, 71)] [(0%Z, 5); (3600%Z, 6); (7200%Z, 7)]
              "cooling" "rbc")
     = times [(3600%Z, 70); (0%Z, 71)].
Proof.
  assert (H1 : NoDup (times [(0%Z, 5); (3600%Z, 6); (7200%Z, 7)])).
  { repeat constructor; simpl; intuition discriminate. }
  assert (H2 : forall t, In t (times [(3600%Z, 70); (0%Z, 71)]) ->
                         In t (times [(0%Z, 5); (3600%Z, 6); (7200%Z, 7)])).
  { simpl. intros t [<-|[<-|[]]]; auto. }
  split; [exact H1|]. split; [exact H2|].
  destruct (thermal_row_count [(3600%Z, 70); (0%Z, 71)]
              [(0%Z, 5); (3600%Z, 6); (7200%Z, 7)] "cooling" "rbc")
    as (_ & _ & H).
  exact (H H1 H2).
Defined.

End ThermalExtras.

(** * Further properties of the baseline model *)

Section BaselineExtras.
Import EnergyCalculator.

Lemma sum_app (xs ys : list Q) : sum (xs ++ ys) == sum xs + sum ys.
Proof.
  induction xs as [|x xs IH]; simpl.
  - ring.
  - rewrite IH. ring.
Qed.

Lemma sum_Permutation (xs ys : list Q) : Permutation xs ys -> sum xs == sum ys.
Proof.
  induction 1 as [|x xs ys _ IH|x y xs|xs ys zs _ IH1 _ IH2]; simpl.
  - reflexivity.
  - now rewrite IH.
  - ring.
  - now rewrite IH1.
Qed.

Lemma len_app {A : Type} (xs ys : list A) : len (xs ++ ys) == len xs + len ys.
Proof.
  unfold len. rewrite length_app, Nat2Z.inj_add, inject_Z_plus. reflexivity.
Qed.

(** The four metrics as functions of the indoor frame. *)
Lemma metrics_closed_form (indoor outdoor : TimeSeries) (rate : Q) :
  let m := calculate_all_metrics indoor outdoor rate in
  total_energy_kwh m
  == sum (map (fun row => 2.42 + surcharge (month (fst row))) indoor)
  /\ cost_usd m
     == len indoor * 2.08 * 0.15
        + sum (map (fun row => 0.34 + surcharge (month (fst row))) indoor) * 0.0226
  /\ co2_kg m == total_energy_kwh m * 0.417
  /\ equivalent_km m == total_energy_kwh m * 0.417 / 0.222.
Proof.
  cbv zeta. unfold calculate_all_metrics.
  cbn [total_energy_kwh cost_usd co2_kg equivalent_km].
  rewrite baseline_gas, baseline_electric.
  repeat split; try reflexivity. apply baseline_total.
Qed.

Lemma hourly_rate_bounds (m : Z) : 2.42 <= hourly_rate m /\ hourly_rate m <= 9.18.
Proof.
  rewrite hourly_rate_spec.
  assert (H0 := surcharge_nonneg m).
  assert (H1 : surcharge m <= 6.76).
  { destruct (get_HEATING_RATES m). unfold HEATING_RATES, get.
    repeat (destruct (Z.eqb _ m); [discriminate|]). discriminate. }
  split; lra.
Qed.

(** X8: the hourly rate of the baseline model lies between 2.42 and 9.18
    for every month number; the upper bound is the rate of February, which
    is above the rate of January; so the total energy of a frame lies
    between 2.42 and 9.18 times its number of rows. *)
Theorem baseline_rate_bounds :
  (forall m, 2.42 <= hourly_rate m /\ hourly_rate m <= 9.18)
  /\ hourly_rate 2 == 9.18
  /\ hourly_rate 1 < hourly_rate 2
  /\ (forall indoor outdoor : TimeSeries,
        let total :=
          calculate_total_energy (calculate_energy_consumption indoor outdoor) in
        len indoor * 2.42 <= total /\ total <= len indoor * 9.18).
Proof.
  split; [exact hourly_rate_bounds|]. split; [reflexivity|]. split; [reflexivity|].
  intros indoor outdoor. cbv zeta. rewrite baseline_rows.
  unfold calculate_total_energy, energy_column. rewrite map_map. cbn [snd].
  rewrite <- (sum_map_const 2.42 indoor), <- (sum_map_const 9.18 indoor).
  split; apply sum_map_le; intros row _; apply hourly_rate_bounds.
Qed.

(** X9: the metrics of two frames put one after the other are the sums of
    the metrics of the two frames, and the energy frame is the two energy
    frames one after the other. *)
Theorem baseline_metrics_additive
  (indoor1 indoor2 outdoor outdoor1 outdoor2 : TimeSeries) (rate : Q) :
  let m := calculate_all_metrics (indoor1 ++ indoor2) outdoor rate in
  let m1 := calculate_all_metrics indoor1 outdoor1 rate in
  let m2 := calculate_all_metrics indoor2 outdoor2 rate in
  energy_df m = energy_df m1 ++ energy_df m2
  /\ total_energy_kwh m == total_energy_kwh m1 + total_energy_kwh m2
  /\ cost_usd m == cost_usd m1 + cost_usd m2
  /\ co2_kg m == co2_kg m1 + co2_kg m2
  /\ equivalent_km m == equivalent_km m1 + equivalent_km m2.
Proof.
  cbv zeta.
  destruct (metrics_closed_form (indoor1 ++ indoor2) outdoor rate)
    as (Ht & Hc & Ho & Hk).
  destruct (metrics_closed_form indoor1 outdoor1 rate) as (Ht1 & Hc1 & Ho1 & Hk1).
  destruct (metrics_closed_form indoor2 outdoor2 rate) as (Ht2 & Hc2 & Ho2 & Hk2).
  assert (Htot :
    total_energy_kwh (calculate_all_metrics (indoor1 ++ indoor2) outdoor rate)
    == total_energy_kwh (calculate_all_metrics indoor1 outdoor1 rate)
       + total_energy_kwh (calculate_all_metrics indoor2 outdoor2 rate)).
  { rewrite Ht, Ht1, Ht2, map_app. apply sum_app. }
  split; [|split; [exact Htot|split; [|split]]].
  - unfold calculate_all_metrics. cbn [energy_df].
    rewrite !baseline_rows. apply map_app.
  - rewrite Hc, Hc1, Hc2, map_app, sum_app, len_app. ring.
  - rewrite Ho, Ho1, Ho2, Htot. ring.
  - rewrite Hk, Hk1, Hk2, Htot. field.
Qed.

(** X10: the totals do not depend on the order of the rows: a frame with
    the rows in another order has the same total energy, cost, CO2 and
    equivalent distance. *)
Theorem baseline_metrics_permutation
  (indoor indoor' outdoor outdoor' : TimeSeries) (rate rate' : Q) :
  Permutation indoor indoor' ->
  let m := calculate_all_metrics indoor outdoor rate in
  let m' := calculate_all_metrics indoor' outdoor' rate' in
  total_energy_kwh m == total_energy_kwh m'
  /\ cost_usd m == cost_usd m'
  /\ co2_kg m == co2_kg m'
  /\ equivalent_km m == equivalent_km m'.
Proof.
  intros Hp. cbv zeta.
  destruct (metrics_closed_form indoor outdoor rate) as (Ht & Hc & Ho & Hk).
  destruct (metrics_closed_form indoor' outdoor' rate') as (Ht' & Hc' & Ho' & Hk').
  assert (Htot :
    total_energy_kwh (calculate_all_metrics indoor outdoor rate)
    == total_energy_kwh (calculate_all_metrics indoor' outdoor' rate')).
  { rewrite Ht, Ht'. apply sum_Permutation. now apply Permutation_map. }
  split; [exact Htot|]. split; [|split].
  - rewrite Hc, Hc'.
    rewrite (sum_Permutation _ _
               (Permutation_map (fun row => 0.34 + surcharge (month (fst row))) Hp)).
    unfold len. now rewrite (Permutation_length Hp).
  - now rewrite Ho, Ho', Htot.
  - now rewrite Hk, Hk', Htot.
Qed.

Lemma baseline_metrics_permutation_witness :
  Permutation [(jan_2024, 20); (jul_2024, 24)] [(jul_2024, 24); (jan_2024, 20)]
  /\ cost_usd (calculate_all_metrics [(jan_2024, 20); (jul_2024, 24)] [] 0.15)
     == cost_usd (calculate_all_metrics [(jul_2024, 24); (jan_2024, 20)] [] 0.15).
Proof.
  assert (H : Permutation [(jan_2024, 20); (jul_2024, 24)]
                          [(jul_2024, 24); (jan_2024, 20)])
    by apply perm_swap.
  split; [exact H|].
  destruct (baseline_metrics_permutation _ _ [] [] 0.15 0.15 H) as (_ & Hc & _).
  exact Hc.
Defined.

(** X11: none of the four metrics is negative, and the reported cost lies
    between the total energy priced at the gas rate 0.0226 and the total
    energy priced at the electric rate 0.15. *)
Theorem baseline_metrics_bounds (indoor outdoor : TimeSeries) (rate : Q) :
  let m := calculate_all_metrics indoor outdoor rate in
  0 <= total_energy_kwh m
  /\ 0 <= cost_usd m
  /\ 0 <= co2_kg m
  /\ 0 <= equivalent_km m
  /\ total_energy_kwh m * 0.0226 <= cost_usd m
  /\ cost_usd m <= total_energy_kwh m * 0.15.
Proof.
  cbv zeta.
  destruct (metrics_closed_form indoor outdoor rate) as (Ht & Hc & Ho & Hk).
  assert (Hsplit :
    sum (map (fun row => 2.42 + surcharge (month (fst row))) indoor)
    == len indoor * 2.08
       + sum (map (fun row => 0.34 + surcharge (month (fst row))) indoor)).
  { rewrite <- (sum_map_const 2.08 indoor), <- sum_map_plus.
    apply sum_map_ext. intros row _. ring. }
  assert (Hlen := len_nonneg indoor).
  assert (Hgas := baseline_gas_lower indoor).
  assert (Htot : 0 <= total_energy_kwh (calculate_all_metrics indoor outdoor rate)).
  { rewrite Ht, Hsplit. lra. }
  split; [exact Htot|]. split; [|split; [|split; [|split]]].
  - rewrite Hc. lra.
  - rewrite Ho. lra.
  - rewrite Hk. unfold Qdiv. apply Qmult_le_0_compat; [lra | discriminate].
  - rewrite Hc, Ht, Hsplit. lra.
  - rewrite Hc, Ht, Hsplit. lra.
Qed.

End BaselineExtras.

(** * Further properties of the generator *)

Section GeneratorExtras.
Open Scope Z_scope.

Lemma In_simulate (start_date end_date : Z) (base_temp amplitude : R) (freq : Z)
  (t : Z) (v : R) :
  In (t, v) (simulate_outdoor_temperature start_date end_date base_temp amplitude freq)
  <-> In t (date_range start_date end_date freq)
      /\ v = (base_temp + amplitude * sin (2 * PI * (IZR (hour t) - 6) / 24))%R.
Proof.
  rewrite simulate_rows, in_map_iff. split.
  - intros (t' & E & Ht). inversion E; subst. now split.
  - intros [Ht ->]. now exists t.
Qed.

Lemma simulate_single (t : Z) (base_temp amplitude : R) (freq : Z) :
  0 < freq ->
  simulate_outdoor_temperature t t base_temp amplitude freq
  = [(t, (base_temp + amplitude * sin (2 * PI * (IZR (hour t) - 6) / 24))%R)].
Proof.
  intros Hf. rewrite simulate_rows. unfold date_range.
  rewrite Z.ltb_irrefl, Z.sub_diag, Z.div_0_l by lia.
  cbn [Z.to_nat seq map Z.of_nat]. now rewrite Z.mul_0_l, Z.add_0_r.
Qed.

Lemma hour_range (t : Z) : 0 <= hour t <= 23.
Proof.
  unfold hour, SECONDS_PER_DAY.
  assert (H := Z.mod_pos_bound t 86400 eq_refl).
  split.
  - apply Z.div_pos; lia.
  - assert (t mod 86400 / 3600 < 24) by (apply Z.div_lt_upper_bound; lia). lia.
Qed.

Lemma hour_next_day (t k : Z) : hour (t + k * 86400) = hour t.
Proof. unfold hour, SECONDS_PER_DAY. now rewrite Z_mod_plus_full. Qed.

Lemma affine_range_sorted (start freq : Z) (a n : nat) :
  0 < freq ->
  StronglySorted Z.lt (map (fun k => start + Z.of_nat k * freq) (seq a n)).
Proof.
  intros Hf. revert a. induction n as [|n IH]; intros a; cbn [seq map].
  - constructor.
  - constructor; [apply IH|].
    apply Forall_forall. intros x Hx. apply in_map_iff in Hx.
    destruct Hx as (k & <- & Hk). apply in_seq in Hk. nia.
Qed.

Lemma sorted_lt_NoDup (l : list Z) : StronglySorted Z.lt l -> NoDup l.
Proof.
  induction 1 as [|x l _ IH Hall]; constructor; [|exact IH].
  intros Hin. rewrite Forall_forall in Hall. specialize (Hall x Hin). lia.
Qed.

Lemma times_simulate (start_date end_date : Z) (base_temp amplitude : R) (freq : Z) :
  times (simulate_outdoor_temperature start_date end_date base_temp amplitude freq)
  = date_range start_date end_date freq.
Proof.
  rewrite simulate_rows. unfold times. rewrite map_map. cbn [fst]. apply map_id.
Qed.

(** X12: every generated value lies within the amplitude of the base
    temperature, and the hour it is computed from lies between 0 and 23. *)
Theorem simulated_temperature_bounds
  (start_date end_date : Z) (base_temp amplitude : R) (freq : Z) (t : Z) (v : R) :
  In (t, v) (simulate_outdoor_temperature start_date end_date base_temp amplitude freq) ->
  (Rabs (v - base_temp) <= Rabs amplitude)%R
  /\ 0 <= hour t <= 23.
Proof.
  intros H. apply In_simulate in H. destruct H as [_ ->].
  split; [|apply hour_range].
  set (x := (2 * PI * (IZR (hour t) - 6) / 24)%R).
  replace (base_temp + amplitude * sin x - base_temp)%R
    with (amplitude * sin x)%R by ring.
  rewrite Rabs_mult. rewrite <- (Rmult_1_r (Rabs amplitude)) at 2.
  apply Rmult_le_compat_l; [apply Rabs_pos|].
  apply Rabs_le. destruct (SIN_bound x). now split.
Qed.

Lemma simulated_temperature_bounds_witness :
  In (0, (default_base_temp
          + default_amplitude * sin (2 * PI * (IZR (hour 0) - 6) / 24))%R)
     (simulate_outdoor_temperature 0 0 default_base_temp default_amplitude default_freq)
  /\ 0 <= hour 0 <= 23.
Proof.
  assert (H : In (0, (default_base_temp
                      + default_amplitude * sin (2 * PI * (IZR (hour 0) - 6) / 24))%R)
                 (simulate_outdoor_temperature 0 0 default_base_temp
                    default_amplitude default_freq)).
  { rewrite (simulate_single 0 _ _ default_freq eq_refl). now left. }
  split; [exact H|].
  exact (proj2 (simulated_temperature_bounds _ _ _ _ _ _ _ H)).
Defined.

(** X13: the generated value is the base temperature at the hours 6 and
    18, the base temperature plus the amplitude at hour 12 and the base
    temperature minus the amplitude at hour 0. *)
Theorem simulated_temperature_extremes
  (start_date end_date : Z) (base_temp amplitude : R) (freq : Z) (t : Z) (v : R) :
  In (t, v) (simulate_outdoor_temperature start_date end_date base_temp amplitude freq) ->
  (hour t = 0 -> v = (base_temp - amplitude)%R)
  /\ (hour t = 6 -> v = base_temp)
  /\ (hour t = 12 -> v = (base_temp + amplitude)%R)
  /\ (hour t = 18 -> v = base_temp).
Proof.
  intros H. apply In_simulate in H. destruct H as [_ ->].
  repeat split; intros ->.
  - replace (2 * PI * (0 - 6) / 24)%R with (- (PI / 2))%R by field.
    rewrite sin_neg, sin_PI2. ring.
  - replace (2 * PI * (6 - 6) / 24)%R with 0%R by field.
    rewrite sin_0. ring.
  - replace (2 * PI * (12 - 6) / 24)%R with (PI / 2)%R by field.
    rewrite sin_PI2. ring.
  - replace (2 * PI * (18 - 6) / 24)%R with PI by field.
    rewrite sin_PI. ring.
Qed.

Lemma simulated_temperature_extremes_witness :
  In (43200, (default_base_temp
              + default_amplitude * sin (2 * PI * (IZR (hour 43200) - 6) / 24))%R)
     (simulate_outdoor_temperature 43200 43200 default_base_temp
        default_amplitude default_freq)
  /\ hour 43200 = 12
  /\ (default_base_temp
      + default_amplitude * sin (2 * PI * (IZR (hour 43200) - 6) / 24))%R
     = (default_base_temp + default_amplitude)%R.
Proof.
  assert (H : In (43200, (default_base_temp
                   + default_amplitude * sin (2 * PI * (IZR (hour 43200) - 6) / 24))%R)
                 (simulate_outdoor_temperature 43200 43200 default_base_temp
                    default_amplitude default_freq)).
  { rewrite (simulate_single 43200 _ _ default_freq eq_refl). now left. }
  assert (Hh : hour 43200 = 12) by reflexivity.
  split; [exact H|]. split; [exact Hh|].
  destruct (simulated_temperature_extremes _ _ _ _ _ _ _ H) as (_ & _ & H12 & _).
  exact (H12 Hh).
Defined.

(** X14: for a positive frequency and start not after end the generated
    frame has (end - start) div freq + 1 rows, its timestamps increase
    strictly (so none is repeated), the first one is start and none is
    after end; when start and end coincide it has the single row of start. *)
Theorem simulated_timestamps_shape
  (start_date end_date : Z) (base_temp amplitude : R) (freq : Z) :
  0 < freq -> start_date <= end_date ->
  let df :=
    simulate_outdoor_temperature start_date end_date base_temp amplitude freq in
  List.length df = S (Z.to_nat ((end_date - start_date) / freq))
  /\ StronglySorted Z.lt (times df)
  /\ NoDup (times df)
  /\ hd_error (times df) = Some start_date
  /\ Forall (fun t => start_date <= t <= end_date) (times df)
  /\ (start_date = end_date -> times df = [start_date]).
Proof.
  intros Hf Hle. cbv zeta.
  assert (Hdr : date_range start_date end_date freq
                = map (fun k => start_date + Z.of_nat k * freq)
                      (seq 0 (S (Z.to_nat ((end_date - start_date) / freq))))).
  { unfold date_range. destruct (Z.ltb_spec end_date start_date); [lia|reflexivity]. }
  assert (Hs : StronglySorted Z.lt (date_range start_date end_date freq)).
  { rewrite Hdr. now apply affine_range_sorted. }
  split; [|split; [|split; [|split; [|split]]]].
  - rewrite <- (length_map fst).
    fold (times (simulate_outdoor_temperature start_date end_date
                   base_temp amplitude freq)).
    rewrite times_simulate, Hdr. now rewrite length_map, length_seq.
  - now rewrite times_simulate.
  - rewrite times_simulate. now apply sorted_lt_NoDup.
  - rewrite times_simulate, Hdr. cbn [seq map hd_error Z.of_nat]. f_equal. lia.
  - rewrite times_simulate. apply Forall_forall. intros t Ht.
    apply (In_date_range _ _ _ _ Hf) in Ht. destruct Ht as (k & Hk & -> & Hend).
    nia.
  - intros <-. rewrite (simulate_single start_date _ _ freq Hf). reflexivity.
Qed.

Lemma simulated_timestamps_shape_witness :
  0 < default_freq /\ jan_2024 <= jan_2024 + 86400
  /\ List.length (simulate_outdoor_temperature jan_2024 (jan_2024 + 86400)
                    default_base_temp default_amplitude default_freq)
     = 25%nat.
Proof.
  assert (Hf : 0 < default_freq) by reflexivity.
  assert (Hle : jan_2024 <= jan_2024 + 86400) by discriminate.
  split; [exact Hf|]. split; [exact Hle|].
  exact (proj1 (simulated_timestamps_shape jan_2024 (jan_2024 + 86400)
                  default_base_temp default_amplitude default_freq Hf Hle)).
Defined.

(** X15: the generated values repeat from day to day: two rows whose
    timestamps are a whole number of days apart hold the same value. *)
Theorem simulated_temperature_daily
  (start_date end_date : Z) (base_temp amplitude : R) (freq : Z)
  (t k : Z) (v v' : R) :
  In (t, v) (simulate_outdoor_temperature start_date end_date base_temp amplitude freq) ->
  In (t + k * 86400, v')
     (simulate_outdoor_temperature start_date end_date base_temp amplitude freq) ->
  v' = v.
Proof.
  intros H H'. apply In_simulate in H. apply In_simulate in H'.
  destruct H as [_ ->], H' as [_ ->]. now rewrite hour_next_day.
Qed.

Lemma simulated_temperature_daily_witness :
  In (0, (default_base_temp
          + default_amplitude * sin (2 * PI * (IZR (hour 0) - 6) / 24))%R)
     (simulate_outdoor_temperature 0 86400 default_base_temp
        default_amplitude default_freq)
  /\ In (0 + 1 * 86400,
         (default_base_temp
          + default_amplitude
            * sin (2 * PI * (IZR (hour (0 + 1 * 86400)) - 6) / 24))%R)
        (simulate_outdoor_temperature 0 86400 default_base_temp
           default_amplitude default_freq)
  /\ (default_base_temp
      + default_amplitude * sin (2 * PI * (IZR (hour (0 + 1 * 86400)) - 6) / 24))%R
     = (default_base_temp
        + default_amplitude * sin (2 * PI * (IZR (hour 0) - 6) / 24))%R.
Proof.
  assert (Hf : 0 < default_freq) by reflexivity.
  assert (H0 : In (0, (default_base_temp
                 + default_amplitude * sin (2 * PI * (IZR (hour 0) - 6) / 24))%R)
                (simulate_outdoor_temperature 0 86400 default_base_temp
                   default_amplitude default_freq)).
  { apply In_simulate. split; [|reflexivity].
    apply (In_date_range 0 86400 default_freq 0 Hf). exists 0.
    repeat split; discriminate. }
  assert (H1 : In (0 + 1 * 86400,
                   (default_base_temp
                    + default_amplitude
                      * sin (2 * PI * (IZR (hour (0 + 1 * 86400)) - 6) / 24))%R)
                (simulate_outdoor_temperature 0 86400 default_base_temp
                   default_amplitude default_freq)).
  { apply In_simulate. split; [|reflexivity].
    apply (In_date_range 0 86400 default_freq (0 + 1 * 86400) Hf). exists 24.
    repeat split; discriminate. }
  split; [exact H0|]. split; [exact H1|].
  exact (simulated_temperature_daily _ _ _ _ _ _ _ _ _ H0 H1).
Defined.

End GeneratorExtras.

(** * Properties of the gauge *)

Section GaugeProperties.
Import Gauge.

Lemma collect_map_Some {A : Type} (xs : list A) :
  collect (map Some xs) = Some xs.
Proof.
  induction xs as [|x xs IH]; [reflexivity|]. cbn [map collect]. now rewrite IH.
Qed.

Lemma collect_None {A : Type} (results : list (option A)) :
  In None results -> collect results = None.
Proof.
  induction results as [|[x|] results IH]; intros H.
  - destruct H.
  - destruct H as [H|H]; [discriminate|]. cbn [collect]. now rewrite IH.
  - reflexivity.
Qed.

Lemma step_at_in_range (thresholds : list Q) (threshold_colors : list string)
  (i : nat) :
  (S i < List.length thresholds)%nat -> (i < List.length threshold_colors)%nat ->
  step_at thresholds threshold_colors i
  = Some (mkStep (nth i thresholds 0) (nth (S i) thresholds 0)
                 (nth i threshold_colors EmptyString)).
Proof.
  intros Ht Hc. unfold step_at.
  rewrite (nth_error_nth' thresholds 0) by lia.
  rewrite (nth_error_nth' thresholds 0 Ht).
  now rewrite (nth_error_nth' threshold_colors EmptyString Hc).
Qed.

(** X16: the gauge builds one colour zone per pair of consecutive
    thresholds, coloured with the colours in order: with enough colours
    there are len(thresholds) - 1 zones, zone i spans thresholds i to i+1
    with colour i, each zone ends where the next one starts, and a colour
    given for the last threshold is never used; with fewer colours than
    zones the loop raises. *)
Theorem gauge_steps_contiguous (thresholds : list Q) (threshold_colors : list string) :
  ((List.length thresholds - 1 <= List.length threshold_colors)%nat ->
   exists zones,
     steps thresholds threshold_colors = Some zones
     /\ List.length zones = (List.length thresholds - 1)%nat
     /\ (forall i, (i < List.length zones)%nat ->
           nth_error zones i
           = Some (mkStep (nth i thresholds 0) (nth (S i) thresholds 0)
                          (nth i threshold_colors EmptyString)))
     /\ (forall i z z', nth_error zones i = Some z ->
           nth_error zones (S i) = Some z' -> range_end z = range_start z')
     /\ map color zones
        = firstn (List.length thresholds - 1) threshold_colors)
  /\ ((List.length threshold_colors < List.length thresholds - 1)%nat ->
      steps thresholds threshold_colors = None).
Proof.
  split.
  - intros Hlen.
    set (n := (List.length thresholds - 1)%nat) in *.
    set (zone := fun i => mkStep (nth i thresholds 0) (nth (S i) thresholds 0)
                            (nth i threshold_colors EmptyString)).
    assert (Hsteps : steps thresholds threshold_colors = Some (map zone (seq 0 n))).
    { unfold steps. fold n. rewrite <- collect_map_Some, map_map. f_equal.
      apply map_ext_in. intros i Hi. apply in_seq in Hi.
      apply step_at_in_range; lia. }
    assert (Hnth : forall i, (i < n)%nat -> nth_error (map zone (seq 0 n)) i
                                           = Some (zone i)).
    { intros i Hi. rewrite nth_error_map, nth_error_seq.
      destruct (Nat.ltb_spec i n); [reflexivity|lia]. }
    exists (map zone (seq 0 n)). rewrite length_map, length_seq.
    split; [exact Hsteps|]. split; [reflexivity|]. split; [exact Hnth|]. split.
    + intros i z z' Hz Hz'.
      assert (Hi : (S i < n)%nat).
      { assert (Hl : (S i < List.length (map zone (seq 0 n)))%nat)
          by (apply nth_error_Some; rewrite Hz'; discriminate).
        now rewrite length_map, length_seq in Hl. }
      rewrite Hnth in Hz by lia. rewrite Hnth in Hz' by lia.
      inversion Hz; inversion Hz'; subst. reflexivity.
    + rewrite map_map. unfold zone. cbn [color].
      clearbody n. clear Hsteps Hnth zone.
      revert Hlen. generalize threshold_colors as cs.
      intros cs Hlen.
      apply (nth_ext _ _ EmptyString EmptyString).
      * rewrite length_map, length_seq, length_firstn. lia.
      * intros i Hi. rewrite length_map, length_seq in Hi.
        rewrite (nth_indep _ EmptyString (nth 0%nat cs EmptyString))
          by (rewrite length_map, length_seq; exact Hi).
        rewrite (map_nth (fun i => nth i cs EmptyString)), seq_nth by exact Hi.
        rewrite nth_firstn. destruct (Nat.ltb_spec i n); [reflexivity|lia].
  - intros Hshort. unfold steps. apply collect_None.
    apply in_map_iff. exists (List.length threshold_colors). split.
    + unfold step_at.
      assert (E : nth_error threshold_colors (List.length threshold_colors) = None)
        by (apply nth_error_None; lia).
      rewrite E.
      now destruct (nth_error thresholds (List.length threshold_colors)),
                   (nth_error thresholds (S (List.length threshold_colors))).
    + apply in_seq. lia.
Qed.

Lemma gauge_steps_contiguous_witness :
  (List.length [0; 100; 200; 300] - 1
   <= List.length ["#73BF69"; "#F2CC0C"; "#FF9933"; "#E02F44"]%string)%nat
  /\ exists zones,
       steps [0; 100; 200; 300] ["#73BF69"; "#F2CC0C"; "#FF9933"; "#E02F44"]%string
       = Some zones
       /\ map color zones = ["#73BF69"; "#F2CC0C"; "#FF9933"]%string.
Proof.
  assert (H : (List.length [0; 100; 200; 300] - 1
               <= List.length ["#73BF69"; "#F2CC0C"; "#FF9933"; "#E02F44"]%string)%nat)
    by (apply le_S, le_n).
  split; [exact H|].
  destruct (proj1 (gauge_steps_contiguous [0; 100; 200; 300]
                     ["#73BF69"; "#F2CC0C"; "#FF9933"; "#E02F44"]%string) H)
    as (zones & Hs & _ & _ & _ & Hc).
  exists zones. split; [exact Hs | exact Hc].
Defined.

Lemma clip_cases (x lo hi : Q) :
  lo <= hi ->
  lo <= clip x lo hi /\ clip x lo hi <= hi
  /\ (x <= lo -> clip x lo hi == lo)
  /\ (hi <= x -> clip x lo hi == hi)
  /\ (lo <= x -> x <= hi -> clip x lo hi == x).
Proof.
  intros H. unfold clip.
  destruct (Qlt_le_dec x lo), (Qlt_le_dec hi x); repeat split; intros; lra.
Qed.

Lemma clip_monotone (x y lo hi : Q) :
  lo <= hi -> x <= y -> clip x lo hi <= clip y lo hi.
Proof.
  intros H Hxy. unfold clip.
  destruct (Qlt_le_dec x lo), (Qlt_le_dec hi x),
           (Qlt_le_dec y lo), (Qlt_le_dec hi y); lra.
Qed.

Lemma ratio_monotone (a b d : Q) : 0 < d -> a <= b -> a / d <= b / d.
Proof.
  intros Hd Hab. unfold Qdiv. apply Qmult_le_compat_r; [exact Hab|].
  apply Qlt_le_weak. now apply Qinv_lt_0_compat.
Qed.

(** X17: for min_val < max_val the needle position lies between 0 and 1;
    it is 0 for every value up to min_val and 1 for every value from
    max_val on, the linear position in between, and it never decreases
    when the value grows. *)
Theorem needle_position (value value' min_val max_val : Q) :
  min_val < max_val ->
  0 <= value_normalized value min_val max_val
  /\ value_normalized value min_val max_val <= 1
  /\ (value <= min_val -> value_normalized value min_val max_val == 0)
  /\ (max_val <= value -> value_normalized value min_val max_val == 1)
  /\ (min_val <= value -> value <= max_val ->
      value_normalized value min_val max_val
      == (value - min_val) / (max_val - min_val))
  /\ (value <= value' ->
      value_normalized value min_val max_val
      <= value_normalized value' min_val max_val).
Proof.
  intros Hlt. unfold value_normalized.
  assert (Hd : 0 < max_val - min_val) by lra.
  assert (H01 : 0 <= 1) by discriminate.
  assert (E0 : (min_val - min_val) / (max_val - min_val) == 0)
    by (field; lra).
  assert (E1 : (max_val - min_val) / (max_val - min_val) == 1)
    by (field; lra).
  destruct (clip_cases ((value - min_val) / (max_val - min_val)) 0 1 H01)
    as (Hlo & Hhi & Hbelow & Habove & Hmid).
  split; [exact Hlo|]. split; [exact Hhi|].
  split; [|split; [|split]].
  - intros Hv. apply Hbelow. rewrite <- E0. apply ratio_monotone; [exact Hd | lra].
  - intros Hv. apply Habove. rewrite <- E1. apply ratio_monotone; [exact Hd | lra].
  - intros Hv1 Hv2. apply Hmid.
    + rewrite <- E0. apply ratio_monotone; [exact Hd | lra].
    + rewrite <- E1. apply ratio_monotone; [exact Hd | lra].
  - intros Hv. apply clip_monotone; [exact H01|].
    apply ratio_monotone; [exact Hd | lra].
Qed.

Lemma needle_position_witness :
  0 < 300 /\ 300 <= 450 /\ value_normalized 450 0 300 == 1.
Proof.
  assert (H : 0 < 300) by reflexivity.
  assert (Hv : 300 <= 450) by discriminate.
  split; [exact H|]. split; [exact Hv|].
  destruct (needle_position 450 450 0 300 H) as (_ & _ & _ & Habove & _).
  exact (Habove Hv).
Defined.

End GaugeProperties.

(** * Properties of the actual consumption and the predicted bill *)

Section BillProperties.
Import InfluxDBHelper.

Lemma sum_nonneg (xs : list Q) : Forall (fun x => 0 <= x) xs -> 0 <= sum xs.
Proof.
  induction 1 as [|x xs Hx _ IH]; simpl; [apply Qle_refl | lra].
Qed.

Lemma column_In (name : string) (df : Frame) (col : Column) :
  column name df = Returned col ->
  has_column name df = true /\ exists n, In (n, col) df.
Proof.
  induction df as [|[n c] rest IH]; [discriminate|].
  cbn [column has_column existsb fst]. destruct (String.eqb n name).
  - intros E. inversion E; subst. split; [reflexivity|]. exists n. now left.
  - intros E. destruct (IH E) as [Hc [n' Hin]]. split; [exact Hc|].
    exists n'. now right.
Qed.

Lemma column_of_empty (name : string) (df : Frame) (col : Column) :
  well_formed df -> empty df = true -> column name df = Returned col ->
  column_length col = 0%nat.
Proof.
  intros Hwf He Hcol. destruct (column_In _ _ _ Hcol) as [_ [n Hin]].
  destruct df as [|[n0 col0] rest]; [destruct Hin|].
  cbn [empty] in He. apply Nat.eqb_eq in He.
  rewrite <- He. exact (Hwf (n, col) (n0, col0) Hin (or_introl eq_refl)).
Qed.

Lemma wrap_int64_in_range (z : Z) :
  (- 2 ^ 63 <= z < 2 ^ 63)%Z -> wrap_int64 z = z.
Proof.
  intros H. unfold wrap_int64. rewrite Z.mod_small; lia.
Qed.

Lemma get_actual_of_column (df : Frame) (col : Column) :
  empty df = false -> column "_value" df = Returned col ->
  get_actual_energy_consumption df
  = (total_wh <- series_sum col ;; total_kwh <- divide total_wh 1000 ;;
     Returned total_kwh).
Proof.
  intros He Hcol. unfold get_actual_energy_consumption.
  rewrite He, (proj1 (column_In _ _ _ Hcol)), Hcol. reflexivity.
Qed.

(** X18: [get_actual_energy_consumption] on a query result whose columns
    have equal lengths.  A frame without rows or without the column
    ['_value'] gives 0.  A float ['_value'] column gives the sum of its
    cells that are not NaN, divided by 1000, which is not negative when no
    cell is.  An int64 column gives its sum wrapped around to 64 bits,
    divided by 1000, which is the plain sum when that fits.  An object
    column that holds a string raises TypeError. *)
Theorem actual_energy_consumption_sum (df : Frame) :
  well_formed df ->
  (empty df = true -> get_actual_energy_consumption df = Returned 0)
  /\ (has_column "_value" df = false ->
      get_actual_energy_consumption df = Returned 0)
  /\ (forall cells, column "_value" df = Returned (Float64 cells) ->
        exists kwh,
          get_actual_energy_consumption df = Returned kwh
          /\ kwh == sum (floats cells) / 1000
          /\ (Forall (fun x => 0 <= x) (floats cells) -> 0 <= kwh))
  /\ (forall cells, column "_value" df = Returned (Int64 cells) ->
        exists kwh,
          get_actual_energy_consumption df = Returned kwh
          /\ kwh == inject_Z (wrap_int64 (fold_right Z.add 0%Z cells)) / 1000
          /\ ((- 2 ^ 63 <= fold_right Z.add 0%Z cells < 2 ^ 63)%Z ->
              kwh == inject_Z (fold_right Z.add 0%Z cells) / 1000))
  /\ (forall cells, column "_value" df = Returned (Object cells) ->
        empty df = false -> existsb is_str cells = true ->
        get_actual_energy_consumption df = Raised TypeError).
Proof.
  intros Hwf. split; [|split; [|split; [|split]]].
  - intros He. unfold get_actual_energy_consumption. now rewrite He.
  - intros Hc. unfold get_actual_energy_consumption. rewrite Hc.
    now rewrite andb_false_r.
  - intros cells Hcol. destruct (empty df) eqn:He.
    + assert (Hlen := column_of_empty _ _ _ Hwf He Hcol). cbn in Hlen.
      apply length_zero_iff_nil in Hlen. subst cells.
      exists 0. split; [|split].
      * unfold get_actual_energy_consumption. now rewrite He.
      * reflexivity.
      * intros _. apply Qle_refl.
    + exists (sum (floats cells) / 1000). split; [|split].
      * now rewrite (get_actual_of_column _ _ He Hcol).
      * reflexivity.
      * intros Hpos. unfold Qdiv.
        apply Qmult_le_0_compat; [now apply sum_nonneg | discriminate].
  - intros cells Hcol. destruct (empty df) eqn:He.
    + assert (Hlen := column_of_empty _ _ _ Hwf He Hcol). cbn in Hlen.
      apply length_zero_iff_nil in Hlen. subst cells.
      exists 0. split; [|split].
      * unfold get_actual_energy_consumption. now rewrite He.
      * reflexivity.
      * intros _. reflexivity.
    + exists (inject_Z (wrap_int64 (fold_right Z.add 0%Z cells)) / 1000).
      split; [|split].
      * now rewrite (get_actual_of_column _ _ He Hcol).
      * reflexivity.
      * intros Hr. now rewrite (wrap_int64_in_range _ Hr).
  - intros cells Hcol He Hstr.
    rewrite (get_actual_of_column _ _ He Hcol).
    cbn [series_sum]. rewrite Hstr. cbn [negb].
    destruct (forallb is_str cells); reflexivity.
Qed.

Lemma actual_energy_consumption_sum_witness :
  well_formed [("_time"%string, Int64 [0; 3600; 7200]%Z);
               ("_value"%string, Float64 [Some 1500; None; Some 500])]
  /\ column "_value" [("_time"%string, Int64 [0; 3600; 7200]%Z);
                      ("_value"%string, Float64 [Some 1500; None; Some 500])]
     = Returned (Float64 [Some 1500; None; Some 500])
  /\ exists kwh,
       get_actual_energy_consumption
         [("_time"%string, Int64 [0; 3600; 7200]%Z);
          ("_value"%string, Float64 [Some 1500; None; Some 500])]
       = Returned kwh
       /\ kwh == 2.
Proof.
  assert (H : well_formed [("_time"%string, Int64 [0; 3600; 7200]%Z);
                           ("_value"%string, Float64 [Some 1500; None; Some 500])]).
  { intros c c' [<-|[<-|[]]] [<-|[<-|[]]]; reflexivity. }
  split; [exact H|]. split; [reflexivity|].
  destruct (actual_energy_consumption_sum _ H) as (_ & _ & Hf & _).
  destruct (Hf _ eq_refl) as (kwh & E & Hv & _).
  exists kwh. split; [exact E|]. rewrite Hv. reflexivity.
Defined.

(** Two positive int64 cells whose sum does not fit give a negative
    total; a string beside a number raises. *)
Example actual_energy_consumption_edge_cases :
  get_actual_energy_consumption
    [("_value"%string, Int64 [2 ^ 62; 2 ^ 62]%Z)]
  = Returned (inject_Z (- 2 ^ 63) / 1000)
  /\ get_actual_energy_consumption
       [("_value"%string, Object [Num 1500; Str "x"])]
     = Raised TypeError
  /\ get_actual_energy_consumption
       [("_value"%string, Object [Str "x"; Str "y"])]
     = Raised TypeError
  /\ get_actual_energy_consumption [] = Returned 0.
Proof. repeat split. Qed.

(** X19: the energy bill callback never takes its estimate from the grid
    power: when [get_actual_energy_consumption] returns, the frame of
    [get_predicted_energy_bill] has one row and the column ['value'], and
    the gauge shows the actual consumption times 0.15, which is the cost
    that [EnergyCalculator.calculate_cost] gives at its default rate; when
    it raises, the callback returns the error figure; in both cases the
    result does not depend on the grid power frame. *)
Theorem energy_bill_value (energy_df power_df : Frame) :
  App.update_energy_bill energy_df power_df
  = match get_actual_energy_consumption energy_df with
    | Returned actual_kwh => App.GaugeFigure (Num (actual_kwh * 0.15))
    | Raised error => App.ErrorFigure error
    end
  /\ (forall actual_kwh,
        get_actual_energy_consumption energy_df = Returned actual_kwh ->
        exists bill_df,
          get_predicted_energy_bill energy_df = Returned bill_df
          /\ empty bill_df = false
          /\ has_column "value" bill_df = true
          /\ actual_kwh * 0.15
             == EnergyCalculator.calculate_cost
                  actual_kwh EnergyCalculator.DEFAULT_electricity_rate).
Proof.
  split.
  - unfold App.update_energy_bill, App.bill_value, get_predicted_energy_bill.
    destruct (get_actual_energy_consumption energy_df) as [actual_kwh|error];
      reflexivity.
  - intros actual_kwh E. unfold get_predicted_energy_bill. rewrite E.
    eexists. split; [reflexivity|]. repeat split.
Qed.

Lemma energy_bill_value_witness :
  get_actual_energy_consumption
    [("_value"%string, Float64 [Some 1500; None; Some 500])]
  = Returned (sum (floats [Some 1500; None; Some 500]) / 1000)
  /\ exists bill_df,
       get_predicted_energy_bill
         [("_value"%string, Float64 [Some 1500; None; Some 500])]
       = Returned bill_df
       /\ empty bill_df = false
       /\ has_column "value" bill_df = true.
Proof.
  assert (H : get_actual_energy_consumption
                [("_value"%string, Float64 [Some 1500; None; Some 500])]
              = Returned (sum (floats [Some 1500; None; Some 500]) / 1000))
    by reflexivity.
  split; [exact H|].
  destruct (proj2 (energy_bill_value
                     [("_value"%string, Float64 [Some 1500; None; Some 500])]
                     [("_value"%string, Object [Str "x"])]) _ H)
    as (bill_df & Eb & He & Hc & _).
  exists bill_df. split; [exact Eb|]. split; [exact He | exact Hc].
Defined.

End BillProperties.
